(** * MMA8491Q accelerometer driver: acquisition protocol and sample decoding

    A shallow embedding of [drivers/iio/accel/mma8491.c].  The driver talks
    to three collaborators (the I2C bus, one GPIO line, the IIO core); each
    of their calls is recorded as an [event] of a chronological trace, and
    the answers of the bus are read from the [world] the driver runs in.
    C integers are modelled as [Z] with the wrap-around written out where
    the code can reach it. *)

From Stdlib Require Import ZArith List Bool Ascii String Lia.
Import ListNotations.
Open Scope Z_scope.

(** ** Machine integers *)

Module CInt.

(** Conversion to [u32]: keep the low 32 bits. *)
Definition to_u32 (x : Z) : Z := x mod 2 ^ 32.

(** Conversion to [s32]: the low 32 bits read as two's complement. *)
Definition to_s32 (x : Z) : Z :=
  let y := x mod 2 ^ 32 in
  if y <? 2 ^ 31 then y else y - 2 ^ 32.

(** Conversion to [s16], used to read a 16-bit word as a signed quantity. *)
Definition to_s16 (x : Z) : Z :=
  let y := x mod 2 ^ 16 in
  if y <? 2 ^ 15 then y else y - 2 ^ 16.

(** [be16_to_cpu] on the two bytes of a [__be16] as they lie in memory:
    the byte at the lower address is the most significant one. *)
Definition be16_to_cpu (b0 b1 : Z) : Z := Z.lor (Z.shiftl b0 8) b1.

(** Modelled from the spec: [sign_extend32] lives in [include/linux/bitops.h],
    which is not part of the sources at hand.  The spec calls it the
    sign-extension of a value "at bit position" [index]; the kernel computes
    it as [(s32)(value << shift) >> shift] with [shift = 31 - index] on a
    [u32] value, which is what is written here. *)
Definition sign_extend32 (value : Z) (index : Z) : Z :=
  let shift := 31 - index in
  Z.shiftr (to_s32 (to_u32 (Z.shiftl (to_u32 value) shift))) shift.

End CInt.

(** ** Sample decoding

    [*val = sign_extend32(be16_to_cpu(buffer[chan->scan_index]) >> 2, 13);]
    The argument is the host-order 16-bit word of the axis. *)

Definition sample_decode (word : Z) : Z :=
  CInt.sign_extend32 (Z.shiftr word 2) 13.

(** The same computation as the specification words it. *)
Module DecoderSpec.

(** Sign-extension of [v] at bit position [bit]: the bits [0..bit] of [v],
    with bit [bit] weighing [- 2 ^ bit]. *)
Definition sign_extend_at (v : Z) (bit : Z) : Z :=
  v mod 2 ^ (bit + 1) - (if Z.testbit v bit then 2 ^ (bit + 1) else 0).

(** "sign-extension at bit position 13 of (word >> 2)". *)
Definition decode (word : Z) : Z := sign_extend_at (Z.shiftr word 2) 13.

(** "a 14-bit field left-shifted by 2 within the 16 bits, arithmetically
    shifted right by 2": the word read as a signed 16-bit number and shifted
    with sign propagation. *)
Definition decode_arith (word : Z) : Z := Z.shiftr (CInt.to_s16 word) 2.

(** Least value of a two's-complement field of [width] bits. *)
Definition signed_min (width : Z) : Z := - 2 ^ (width - 1).

(** Greatest value of a two's-complement field of [width] bits. *)
Definition signed_max (width : Z) : Z := 2 ^ (width - 1) - 1.

End DecoderSpec.

(** ** Constants of the kernel headers the driver uses *)

(** [BIT(n)] of [include/linux/bitops.h]. *)
Definition BIT (n : Z) : Z := Z.shiftl 1 n.

(** Error numbers of [include/uapi/asm-generic/errno-base.h]. *)
Definition EIO : Z := 5.
Definition EBUSY : Z := 16.
Definition EINVAL : Z := 22.

(** [IIO_VAL_INT] of [include/linux/iio/types.h] and [IRQ_HANDLED] of
    [include/linux/irqreturn.h]. *)
Definition IIO_VAL_INT : Z := 1.
Definition IRQ_HANDLED : Z := 1.

(** [enum iio_chan_info_enum] of [include/linux/iio/iio.h]: the kind of
    query the IIO core passes to [read_raw] as [mask]. *)
Inductive iio_chan_info_enum : Type :=
| IIO_CHAN_INFO_RAW
| IIO_CHAN_INFO_PROCESSED
| IIO_CHAN_INFO_SCALE
| IIO_CHAN_INFO_OFFSET
| IIO_CHAN_INFO_CALIBSCALE
| IIO_CHAN_INFO_CALIBBIAS
| IIO_CHAN_INFO_PEAK
| IIO_CHAN_INFO_PEAK_SCALE
| IIO_CHAN_INFO_QUADRATURE_CORRECTION_RAW
| IIO_CHAN_INFO_AVERAGE_RAW
| IIO_CHAN_INFO_LOW_PASS_FILTER_3DB_FREQUENCY
| IIO_CHAN_INFO_SAMP_FREQ
| IIO_CHAN_INFO_FREQUENCY
| IIO_CHAN_INFO_PHASE
| IIO_CHAN_INFO_HARDWAREGAIN
| IIO_CHAN_INFO_HYSTERESIS
| IIO_CHAN_INFO_INT_TIME.

Definition iio_chan_info_eqb (a b : iio_chan_info_enum) : bool :=
  match a, b with
  | IIO_CHAN_INFO_RAW, IIO_CHAN_INFO_RAW
  | IIO_CHAN_INFO_PROCESSED, IIO_CHAN_INFO_PROCESSED
  | IIO_CHAN_INFO_SCALE, IIO_CHAN_INFO_SCALE
  | IIO_CHAN_INFO_OFFSET, IIO_CHAN_INFO_OFFSET
  | IIO_CHAN_INFO_CALIBSCALE, IIO_CHAN_INFO_CALIBSCALE
  | IIO_CHAN_INFO_CALIBBIAS, IIO_CHAN_INFO_CALIBBIAS
  | IIO_CHAN_INFO_PEAK, IIO_CHAN_INFO_PEAK
  | IIO_CHAN_INFO_PEAK_SCALE, IIO_CHAN_INFO_PEAK_SCALE
  | IIO_CHAN_INFO_QUADRATURE_CORRECTION_RAW,
    IIO_CHAN_INFO_QUADRATURE_CORRECTION_RAW
  | IIO_CHAN_INFO_AVERAGE_RAW, IIO_CHAN_INFO_AVERAGE_RAW
  | IIO_CHAN_INFO_LOW_PASS_FILTER_3DB_FREQUENCY,
    IIO_CHAN_INFO_LOW_PASS_FILTER_3DB_FREQUENCY
  | IIO_CHAN_INFO_SAMP_FREQ, IIO_CHAN_INFO_SAMP_FREQ
  | IIO_CHAN_INFO_FREQUENCY, IIO_CHAN_INFO_FREQUENCY
  | IIO_CHAN_INFO_PHASE, IIO_CHAN_INFO_PHASE
  | IIO_CHAN_INFO_HARDWAREGAIN, IIO_CHAN_INFO_HARDWAREGAIN
  | IIO_CHAN_INFO_HYSTERESIS, IIO_CHAN_INFO_HYSTERESIS
  | IIO_CHAN_INFO_INT_TIME, IIO_CHAN_INFO_INT_TIME => true
  | _, _ => false
  end.

(** ** The world the driver runs in *)

(** One call into a collaborator, as that collaborator sees it. *)
Inductive event : Type :=
| EvGpioSet (gpio value : Z)          (* gpio_set_value_cansleep *)
| EvMutexLock                         (* mutex_lock(&data->lock) *)
| EvMutexUnlock                       (* mutex_unlock(&data->lock) *)
| EvReadByte (command : Z)            (* i2c_smbus_read_byte_data *)
| EvReadBlock (command length : Z)    (* i2c_smbus_read_i2c_block_data *)
| EvSleep (msecs : Z)                 (* msleep *)
| EvDevErr (msg : string)             (* dev_err *)
| EvPush (data : list Z) (timestamp : Z)
                                      (* iio_push_to_buffers_with_timestamp *)
| EvNotifyDone.                       (* iio_trigger_notify_done *)

(** The device, its bus and the host framework seen from the driver.
    [byte_resp n] is what the bus answers to the [n]-th byte read (a
    negative errno or the byte); [block_resp n] is what it answers to the
    [n]-th block read (a negative errno or the number of bytes, and the
    bytes it stored).  [stack_byte] stands for the indeterminate contents
    of an automatic array before it is written. *)
Record world : Type := mkWorld {
  byte_resp : nat -> Z;
  block_resp : nat -> Z * list Z;
  byte_reads : nat;
  block_reads : nat;
  stack_byte : nat -> Z;
  time_ns : Z;
  buffer_enabled : bool;
  gpio_level : Z -> Z;
  lock_held : bool;
  trace : list event
}.

(** Append one event to the trace. *)
Definition record_event (e : event) (w : world) : world :=
  mkWorld (byte_resp w) (block_resp w) (byte_reads w) (block_reads w)
          (stack_byte w) (time_ns w) (buffer_enabled w) (gpio_level w)
          (lock_held w) (trace w ++ [e]).

Definition set_gpio_level (gpio value : Z) (w : world) : world :=
  mkWorld (byte_resp w) (block_resp w) (byte_reads w) (block_reads w)
          (stack_byte w) (time_ns w) (buffer_enabled w)
          (fun g => if g =? gpio then value else gpio_level w g)
          (lock_held w) (trace w).

Definition set_lock_held (b : bool) (w : world) : world :=
  mkWorld (byte_resp w) (block_resp w) (byte_reads w) (block_reads w)
          (stack_byte w) (time_ns w) (buffer_enabled w) (gpio_level w)
          b (trace w).

Definition next_byte_read (w : world) : world :=
  mkWorld (byte_resp w) (block_resp w) (S (byte_reads w)) (block_reads w)
          (stack_byte w) (time_ns w) (buffer_enabled w) (gpio_level w)
          (lock_held w) (trace w).

Definition next_block_read (w : world) : world :=
  mkWorld (byte_resp w) (block_resp w) (byte_reads w) (S (block_reads w))
          (stack_byte w) (time_ns w) (buffer_enabled w) (gpio_level w)
          (lock_held w) (trace w).

(** ** A state monad over the world *)

Definition M (A : Type) : Type := world -> A * world.

Definition ret {A : Type} (a : A) : M A := fun w => (a, w).

Definition bind {A B : Type} (m : M A) (k : A -> M B) : M B :=
  fun w => let (a, w') := m w in k a w'.

Declare Scope drv_scope.
Delimit Scope drv_scope with drv.
Notation "x <- m ;; k" := (bind m (fun x => k))
  (at level 61, m at next level, right associativity) : drv_scope.
Notation "' pat <- m ;; k" := (bind m (fun x => match x with pat => k end))
  (at level 61, pat pattern, m at next level, right associativity) : drv_scope.
Notation "m ;; k" := (bind m (fun _ => k))
  (at level 61, right associativity) : drv_scope.
Open Scope drv_scope.

(** Result and final world of a computation. *)
Definition result {A : Type} (m : M A) (w : world) : A := fst (m w).
Definition after {A : Type} (m : M A) (w : world) : world := snd (m w).

(** ** The collaborators *)

Definition gpio_set_value_cansleep (gpio value : Z) : M unit :=
  fun w => (tt, record_event (EvGpioSet gpio value)
                  (set_gpio_level gpio value w)).

Definition mutex_lock : M unit :=
  fun w => (tt, record_event EvMutexLock (set_lock_held true w)).

Definition mutex_unlock : M unit :=
  fun w => (tt, record_event EvMutexUnlock (set_lock_held false w)).

Definition i2c_smbus_read_byte_data (command : Z) : M Z :=
  fun w => (byte_resp w (byte_reads w),
            record_event (EvReadByte command) (next_byte_read w)).

(** The bytes the bus delivered overwrite the front of [buf]; at most
    [length] of them are stored. *)
Definition store_block (length : Z) (bytes buf : list Z) : list Z :=
  let got := firstn (Nat.min (Z.to_nat length) (List.length buf)) bytes in
  got ++ skipn (List.length got) buf.

Definition i2c_smbus_read_i2c_block_data (command length : Z)
    (buf : list Z) : M (Z * list Z) :=
  fun w =>
    let (r, bytes) := block_resp w (block_reads w) in
    ((r, if r <? 0 then buf else store_block length bytes buf),
     record_event (EvReadBlock command length) (next_block_read w)).

Definition msleep (msecs : Z) : M unit :=
  fun w => (tt, record_event (EvSleep msecs) w).

Definition dev_err (msg : string) : M unit :=
  fun w => (tt, record_event (EvDevErr msg) w).

Definition iio_buffer_enabled : M bool :=
  fun w => (buffer_enabled w, w).

Definition iio_get_time_ns : M Z :=
  fun w => (time_ns w, w).

Definition iio_push_to_buffers_with_timestamp (data : list Z)
    (timestamp : Z) : M unit :=
  fun w => (tt, record_event (EvPush data timestamp) w).

Definition iio_trigger_notify_done : M unit :=
  fun w => (tt, record_event EvNotifyDone w).

(** An automatic array of [n] bytes, not yet written. *)
Definition stack_array (n : nat) : M (list Z) :=
  fun w => (map (stack_byte w) (seq 0 n), w).

(** ** The driver *)

Definition MMA8491_STATUS : Z := 0x00.
Definition MMA8491_OUT_X : Z := 0x01.
Definition MMA8491_OUT_Y : Z := 0x03.
Definition MMA8491_OUT_Z : Z := 0x05.
Definition MMA8491_STATUS_DRDY : Z := Z.lor (Z.lor (BIT 2) (BIT 1)) (BIT 0).

(** [sizeof(__be16)]. *)
Definition sizeof_be16 : Z := 2.

(** [struct mma8491_data].  Its [client] and [lock] members are the bus and
    the mutex of the [world]; the other members are plain data. *)
Record mma8491_data : Type := mk_mma8491_data {
  ctrl_reg1 : Z;
  data_cfg : Z;
  rst_gpio : Z
}.

(** The test of the polling loop:
    [(ret & MMA8491_STATUS_DRDY) == MMA8491_STATUS_DRDY]. *)
Definition drdy_set (status : Z) : bool :=
  Z.land status MMA8491_STATUS_DRDY =? MMA8491_STATUS_DRDY.

(** The loop [while (tries-- > 0) { ... }] of [mma8491_drdy], with the
    statements that follow it, for [tries] iterations still allowed. *)
Fixpoint drdy_loop (tries : nat) : M Z :=
  match tries with
  | O =>
      dev_err "data not ready" ;;
      ret (- EIO)
  | S tries' =>
      r <- i2c_smbus_read_byte_data MMA8491_STATUS ;;
      if r <? 0 then ret r
      else if drdy_set r then ret 0
      else msleep 20 ;; drdy_loop tries'
  end.

Definition mma8491_drdy : M Z := drdy_loop 150.

Definition mma8491_read (buf : list Z) : M (Z * list Z) :=
  r <- mma8491_drdy ;;
  if r <? 0 then ret (r, buf)
  else i2c_smbus_read_i2c_block_data MMA8491_OUT_X (3 * sizeof_be16) buf.

(** [enum iio_chan_type] and [enum iio_modifier], as far as the driver
    names them. *)
Inductive iio_chan_type : Type := IIO_ACCEL | IIO_TIMESTAMP.
Inductive iio_modifier : Type :=
  IIO_NO_MOD | IIO_MOD_X | IIO_MOD_Y | IIO_MOD_Z.
Inductive iio_endian : Type := IIO_CPU | IIO_BE | IIO_LE.

Record iio_scan_type : Type := mk_scan_type {
  sign : Ascii.ascii;
  realbits : Z;
  storagebits : Z;
  shift : Z;
  endianness : iio_endian
}.

(** [struct iio_chan_spec], the members the driver sets.  A mask of
    [BIT(...)] values is the list of the queries it names. *)
Record iio_chan_spec : Type := mk_chan_spec {
  type : iio_chan_type;
  modified : Z;
  channel2 : iio_modifier;
  info_mask_separate : list iio_chan_info_enum;
  info_mask_shared_by_type : list iio_chan_info_enum;
  scan_index : nat;
  scan_type : iio_scan_type
}.

Definition MMA8491_CHANNEL (axis : iio_modifier) (idx : nat) : iio_chan_spec :=
  {| type := IIO_ACCEL;
     modified := 1;
     channel2 := axis;
     info_mask_separate := [IIO_CHAN_INFO_RAW; IIO_CHAN_INFO_CALIBBIAS];
     info_mask_shared_by_type := [IIO_CHAN_INFO_SAMP_FREQ; IIO_CHAN_INFO_SCALE];
     scan_index := idx;
     scan_type := {| sign := "s"%char; realbits := 12; storagebits := 16;
                     shift := 4; endianness := IIO_BE |} |}.

(** [IIO_CHAN_SOFT_TIMESTAMP(_si)] of [include/linux/iio/iio.h]. *)
Definition IIO_CHAN_SOFT_TIMESTAMP (si : nat) : iio_chan_spec :=
  {| type := IIO_TIMESTAMP;
     modified := 0;
     channel2 := IIO_NO_MOD;
     info_mask_separate := [];
     info_mask_shared_by_type := [];
     scan_index := si;
     scan_type := {| sign := "s"%char; realbits := 64; storagebits := 64;
                     shift := 0; endianness := IIO_CPU |} |}.

Definition mma8491_channels : list iio_chan_spec :=
  [ MMA8491_CHANNEL IIO_MOD_X 0;
    MMA8491_CHANNEL IIO_MOD_Y 1;
    MMA8491_CHANNEL IIO_MOD_Z 2;
    IIO_CHAN_SOFT_TIMESTAMP 3 ].

(** The query [mask] is one the channel offers: its bit is set in one of
    the channel's masks. *)
Definition chan_offers (chan : iio_chan_spec) (mask : iio_chan_info_enum)
    : bool :=
  existsb (iio_chan_info_eqb mask)
          (info_mask_separate chan ++ info_mask_shared_by_type chan).

(** [buffer[idx]] of a [__be16] array held as bytes, through
    [be16_to_cpu].  An index past the array is not reached for the axis
    channels, whose [scan_index] is 0, 1 or 2.  Past the array the code
    reads whatever lies behind it; the 0 returned here stands for none of
    that, and every statement about a value is made for an index below 3. *)
Definition be16_at (buf : list Z) (idx : nat) : Z :=
  CInt.be16_to_cpu (nth (2 * idx) buf 0) (nth (2 * idx + 1) buf 0).

(** What [read_raw] hands back: the returned [int] and what it stored
    through [val]; [val2] is never written. *)
Record raw_result : Type := mk_raw_result {
  rr_ret : Z;
  rr_val : option Z
}.

Definition mma8491_read_raw (data : mma8491_data) (chan : iio_chan_spec)
    (mask : iio_chan_info_enum) : M raw_result :=
  match mask with
  | IIO_CHAN_INFO_RAW =>
      enabled <- iio_buffer_enabled ;;
      if enabled then ret (mk_raw_result (- EBUSY) None)
      else
        buffer <- stack_array 6 ;;
        gpio_set_value_cansleep (rst_gpio data) 1 ;;
        mutex_lock ;;
        rb <- mma8491_read buffer ;;
        mutex_unlock ;;
        gpio_set_value_cansleep (rst_gpio data) 0 ;;
        if fst rb <? 0 then ret (mk_raw_result (fst rb) None)
        else ret (mk_raw_result IIO_VAL_INT
               (Some (sample_decode (be16_at (snd rb) (scan_index chan)))))
  | _ => ret (mk_raw_result (- EINVAL) None)
  end.

Definition mma8491_trigger_handler : M Z :=
  buffer <- stack_array 16 ;;
  rb <- mma8491_read buffer ;;
  (if fst rb <? 0 then ret tt
   else
     ts <- iio_get_time_ns ;;
     iio_push_to_buffers_with_timestamp (snd rb) ts) ;;
  iio_trigger_notify_done ;;
  ret IRQ_HANDLED.

(** [struct iio_info], the callbacks a driver may register. *)
Record iio_info : Type := mk_iio_info {
  read_raw :
    option (mma8491_data -> iio_chan_spec -> iio_chan_info_enum -> M raw_result);
  write_raw :
    option (mma8491_data -> iio_chan_spec -> Z -> Z -> iio_chan_info_enum -> M Z)
}.

Definition mma8491_info : iio_info :=
  {| read_raw := Some mma8491_read_raw; write_raw := None |}.

Definition mma8491_scan_masks : list Z := [0x7; 0].

(** ** Observations on traces *)

Definition is_byte_read (e : event) : bool :=
  match e with EvReadByte _ => true | _ => false end.

Definition is_block_read (e : event) : bool :=
  match e with EvReadBlock _ _ => true | _ => false end.

Definition is_bus_read (e : event) : bool :=
  is_byte_read e || is_block_read e.

Definition is_gpio_set (e : event) : bool :=
  match e with EvGpioSet _ _ => true | _ => false end.

Definition is_mutex_op (e : event) : bool :=
  match e with EvMutexLock | EvMutexUnlock => true | _ => false end.

Definition is_sleep (e : event) : bool :=
  match e with EvSleep _ => true | _ => false end.

Definition is_dev_err (e : event) : bool :=
  match e with EvDevErr _ => true | _ => false end.

Definition is_push (e : event) : bool :=
  match e with EvPush _ _ => true | _ => false end.

Definition is_notify_done (e : event) : bool :=
  match e with EvNotifyDone => true | _ => false end.

(** Number of events of a kind. *)
Definition count (p : event -> bool) (evs : list event) : nat :=
  List.length (filter p evs).

(** The events a computation adds to the trace of the world it starts in. *)
Definition emitted {A : Type} (m : M A) (w : world) : list event :=
  skipn (List.length (trace w)) (trace (after m w)).

(** [k] rounds of the polling loop that found the data not ready: a
    status read, then the fixed delay. *)
Fixpoint poll_rounds (k : nat) : list event :=
  match k with
  | O => []
  | S k' => EvReadByte MMA8491_STATUS :: EvSleep 20 :: poll_rounds k'
  end.

(** The events the polling loop can emit. *)
Definition is_poll_event (e : event) : bool :=
  is_byte_read e || is_sleep e || is_dev_err e.

(** The events an acquisition ([mma8491_read]) can emit. *)
Definition is_read_event (e : event) : bool :=
  is_poll_event e || is_block_read e.

(** Level of the line [gpio] after [evs], when it was [lvl] before. *)
Fixpoint line_after (gpio lvl : Z) (evs : list event) : Z :=
  match evs with
  | [] => lvl
  | EvGpioSet g v :: evs' =>
      line_after gpio (if g =? gpio then v else lvl) evs'
  | _ :: evs' => line_after gpio lvl evs'
  end.

(** Every bus read of [evs] happens while the line [gpio] is high, the
    line being at [lvl] before. *)
Fixpoint reads_powered (gpio lvl : Z) (evs : list event) : bool :=
  match evs with
  | [] => true
  | EvGpioSet g v :: evs' =>
      reads_powered gpio (if g =? gpio then v else lvl) evs'
  | e :: evs' =>
      (if is_bus_read e then lvl =? 1 else true)
      && reads_powered gpio lvl evs'
  end.

(** The enable line frames the bus reads of [evs]: starting low, it is
    high at every bus read and low again at the end. *)
Definition power_gated (gpio : Z) (evs : list event) : bool :=
  reads_powered gpio 0 evs && (line_after gpio 0 evs =? 0).

(** Every event of [evs] selected by [p] happens while the mutex is held,
    [held] telling whether it is held before. *)
Fixpoint under_lock (p : event -> bool) (held : bool) (evs : list event)
    : bool :=
  match evs with
  | [] => true
  | EvMutexLock :: evs' => under_lock p true evs'
  | EvMutexUnlock :: evs' => under_lock p false evs'
  | e :: evs' => (if p e then held else true) && under_lock p held evs'
  end.

(** Every event of [evs] selected by [p] happens while the mutex is not
    held. *)
Fixpoint outside_lock (p : event -> bool) (held : bool) (evs : list event)
    : bool :=
  match evs with
  | [] => true
  | EvMutexLock :: evs' => outside_lock p true evs'
  | EvMutexUnlock :: evs' => outside_lock p false evs'
  | e :: evs' => (if p e then negb held else true) && outside_lock p held evs'
  end.

(** Every mutex operation of [evs] happens while the line [gpio] is high. *)
Fixpoint lock_while_powered (gpio lvl : Z) (evs : list event) : bool :=
  match evs with
  | [] => true
  | EvGpioSet g v :: evs' =>
      lock_while_powered gpio (if g =? gpio then v else lvl) evs'
  | e :: evs' =>
      (if is_mutex_op e then lvl =? 1 else true)
      && lock_while_powered gpio lvl evs'
  end.

(** The [k]-th answer the bus will give to a byte read from now on. *)
Definition status_at (w : world) (k : nat) : Z :=
  byte_resp w (byte_reads w + k).

(** The three data-ready bits of a status byte, bits 0, 1 and 2, are all
    set. *)
Definition ready_bits (status : Z) : bool :=
  Z.testbit status 0 && Z.testbit status 1 && Z.testbit status 2.

(** The polling loop goes on after a status [r]: no bus error, data not
    ready. *)
Definition keeps_polling (r : Z) : bool :=
  negb (r <? 0) && negb (drdy_set r).

(** What the poller hands back when it stops at a status [r] that ends
    the loop: the bus error itself, or 0 when the data is ready. *)
Definition drdy_verdict (r : Z) : Z := if r <? 0 then r else 0.

(** The fields of the world that polling and reading leave alone. *)
Definition same_device (w w' : world) : Prop :=
  byte_resp w' = byte_resp w /\ block_resp w' = block_resp w /\
  stack_byte w' = stack_byte w /\ time_ns w' = time_ns w /\
  buffer_enabled w' = buffer_enabled w.

(** The world in which the on-demand path starts its acquisition: the
    enable line driven high, then the mutex taken. *)
Definition on_demand_entry (data : mma8491_data) (w : world) : world :=
  after (gpio_set_value_cansleep (rst_gpio data) 1 ;; mutex_lock) w.

(** The world the on-demand path leaves behind an acquisition that ended
    in [w1]: the mutex released, then the enable line driven low. *)
Definition on_demand_exit (data : mma8491_data) (w1 : world) : world :=
  after (mutex_unlock ;; gpio_set_value_cansleep (rst_gpio data) 0) w1.

(** ** Sample worlds *)

(** A fresh world: nothing read yet, line low, mutex free, empty trace. *)
Definition fresh_world (bytes : nat -> Z) (block : Z * list Z)
    (streaming : bool) : world :=
  mkWorld bytes (fun _ => block) 0 0 (fun _ => 0) 0 streaming
          (fun _ => 0) false [].

(** The data is ready at once and the burst read delivers X = 1, Y = 2,
    Z = -1. *)
Definition world_ready : world :=
  fresh_world (fun _ => 0x07) (6, [0x00; 0x04; 0x00; 0x08; 0xFF; 0xFC]) false.

(** The same device while the triggered buffer is enabled. *)
Definition world_streaming : world :=
  fresh_world (fun _ => 0x07) (6, [0x00; 0x04; 0x00; 0x08; 0xFF; 0xFC]) true.

(** The data becomes ready at the third status read. *)
Definition world_ready_third : world :=
  fresh_world (fun n => if (n <? 2)%nat then 0x03 else 0x07)
              (6, [0x3F; 0xFC; 0x00; 0x04; 0x80; 0x00]) false.

(** The data never becomes ready. *)
Definition world_never_ready : world :=
  fresh_world (fun _ => 0x05) (6, [0; 0; 0; 0; 0; 0]) true.

(** The bus fails at the second status read. *)
Definition world_poll_error : world :=
  fresh_world (fun n => if (n <? 1)%nat then 0x00 else -6)
              (6, [0; 0; 0; 0; 0; 0]) true.

(** The data is ready but the burst read fails. *)
Definition world_burst_error : world :=
  fresh_world (fun _ => 0xFF) (-6, []) true.

Definition the_device : mma8491_data :=
  {| ctrl_reg1 := 0; data_cfg := 0; rst_gpio := 17 |}.

(** Idle devices (no streaming) on which an acquisition fails: the data
    never becomes ready; the bus fails at the second status read; the burst
    read fails; the burst read delivers two bytes only. *)
Definition world_never_ready_idle : world :=
  fresh_world (fun _ => 0x05) (6, [0; 0; 0; 0; 0; 0]) false.

Definition world_poll_error_idle : world :=
  fresh_world (fun n => if (n <? 1)%nat then 0x00 else -6)
              (6, [0; 0; 0; 0; 0; 0]) false.

Definition world_burst_error_idle : world :=
  fresh_world (fun _ => 0xFF) (-6, []) false.

Definition world_short_read : world :=
  mkWorld (fun _ => 0x07) (fun _ => (2, [0x12; 0x34])) 0 0
          (fun i => 0xA0 + Z.of_nat i) 0 false (fun _ => 0) false [].

(** ** Two callers of the on-demand path

    Nothing above [mma8491_read_raw] serialises its callers: two of them can
    be inside it at once, and only [data->lock] orders their calls.  The
    calls a caller makes after the test of the streaming mode are taken one
    at a time, and a schedule says whose call comes next. *)

(** The calls of lines 74 to 78. *)
Inductive raw_step : Type :=
| StepPowerOn       (* gpio_set_value_cansleep(data->rst_gpio, 1) *)
| StepLock          (* mutex_lock(&data->lock) *)
| StepAcquire       (* ret = mma8491_read(data, buffer) *)
| StepUnlock        (* mutex_unlock(&data->lock) *)
| StepPowerOff.     (* gpio_set_value_cansleep(data->rst_gpio, 0) *)

Definition raw_steps : list raw_step :=
  [StepPowerOn; StepLock; StepAcquire; StepUnlock; StepPowerOff].

(** A caller inside [mma8491_read_raw]: the calls it has still to make,
    its automatic [buffer] and its [ret], not assigned at first. *)
Record reader : Type := mk_reader {
  todo : list raw_step;
  rd_buffer : list Z;
  rd_ret : option Z
}.

(** A caller that has passed the test of the streaming mode. *)
Definition enter_reader : M reader :=
  buffer <- stack_array 6 ;;
  ret (mk_reader raw_steps buffer None).

(** The next call of a caller.  [None]: it cannot move, because it has
    made all its calls or because it waits for the mutex another holds. *)
Definition reader_step (data : mma8491_data) (r : reader)
    : M (option reader) :=
  match todo r with
  | [] => ret None
  | StepPowerOn :: rest =>
      gpio_set_value_cansleep (rst_gpio data) 1 ;;
      ret (Some (mk_reader rest (rd_buffer r) (rd_ret r)))
  | StepLock :: rest =>
      fun w =>
        if lock_held w then (None, w)
        else (mutex_lock ;;
              ret (Some (mk_reader rest (rd_buffer r) (rd_ret r)))) w
  | StepAcquire :: rest =>
      rb <- mma8491_read (rd_buffer r) ;;
      ret (Some (mk_reader rest (snd rb) (Some (fst rb))))
  | StepUnlock :: rest =>
      mutex_unlock ;;
      ret (Some (mk_reader rest (rd_buffer r) (rd_ret r)))
  | StepPowerOff :: rest =>
      gpio_set_value_cansleep (rst_gpio data) 0 ;;
      ret (Some (mk_reader rest (rd_buffer r) (rd_ret r)))
  end.

(** What a caller hands back once it has made its calls (lines 79 to
    83). *)
Definition reader_result (chan : iio_chan_spec) (r : reader)
    : option raw_result :=
  match todo r, rd_ret r with
  | [], Some v =>
      Some (if v <? 0 then mk_raw_result v None
            else mk_raw_result IIO_VAL_INT
                   (Some (sample_decode
                            (be16_at (rd_buffer r) (scan_index chan)))))
  | _, _ => None
  end.

Inductive who : Type := ReaderA | ReaderB.

(** Run the calls of two callers in the order [schedule] gives.  [None]:
    the schedule asks a caller to move that cannot. *)
Fixpoint run_schedule (data : mma8491_data) (schedule : list who)
    (a b : reader) : M (option (reader * reader)) :=
  match schedule with
  | [] => ret (Some (a, b))
  | ReaderA :: rest =>
      a' <- reader_step data a ;;
      match a' with
      | Some a1 => run_schedule data rest a1 b
      | None => ret None
      end
  | ReaderB :: rest =>
      b' <- reader_step data b ;;
      match b' with
      | Some b1 => run_schedule data rest a b1
      | None => ret None
      end
  end.

Definition two_readers (data : mma8491_data) (schedule : list who)
    : M (option (reader * reader)) :=
  a <- enter_reader ;;
  b <- enter_reader ;;
  run_schedule data schedule a b.

(** The first caller raises the line and takes the mutex; the second
    raises the line and waits; when the first has released the mutex the
    second takes it, the first lowers the line, and the second acquires. *)
Definition overlapping_schedule : list who :=
  [ReaderA; ReaderA; ReaderB; ReaderA; ReaderA;
   ReaderB; ReaderA; ReaderB; ReaderB; ReaderB].

(** ** Further observations *)

(** Total of the delays of [evs], in milliseconds. *)
Fixpoint sleep_total (evs : list event) : Z :=
  match evs with
  | [] => 0
  | EvSleep msecs :: evs' => msecs + sleep_total evs'
  | _ :: evs' => sleep_total evs'
  end.

(** The 16-bit word whose upper 14 bits hold the two's-complement field
    [v] and whose two lower bits are clear. *)
Definition field_encode (v : Z) : Z := (v mod 2 ^ 14) * 4.

(** The bytes [from .. from + n - 1] of an automatic array as they lie
    before it is written. *)
Definition stale_bytes (w : world) (from n : nat) : list Z :=
  map (stack_byte w) (seq from n).

(** ** Attaching and detaching the device

    [mma8491_probe] and [mma8491_remove] talk to the driver core, the GPIO
    layer and the IIO core.  Their host is modelled apart from the world of
    an acquisition: what the collaborators will answer, the one [iio_dev]
    object the probe allocates, and what has been set up so far. *)

Module Attach.

(** [ENOMEM] of [include/uapi/asm-generic/errno-base.h] and
    [INDIO_DIRECT_MODE] of [include/linux/iio/iio.h]. *)
Definition ENOMEM : Z := 12.
Definition INDIO_DIRECT_MODE : Z := 0x01.

(** The flags of [include/linux/gpio.h] a request can carry. *)
Inductive gpio_flags : Type :=
  GPIOF_IN | GPIOF_OUT_INIT_LOW | GPIOF_OUT_INIT_HIGH.

(** [struct iio_dev], the members the probe sets, with the private area
    [iio_priv] returns.  [devm_iio_device_alloc] hands the object out
    zeroed. *)
Record iio_dev : Type := mk_iio_dev {
  info : option iio_info;
  name : string;
  modes : Z;
  channels : list iio_chan_spec;
  num_channels : nat;
  available_scan_masks : list Z;
  priv : mma8491_data
}.

Definition zeroed_dev : iio_dev :=
  {| info := None; name := ""; modes := 0; channels := [];
     num_channels := 0; available_scan_masks := [];
     priv := {| ctrl_reg1 := 0; data_cfg := 0; rst_gpio := 0 |} |}.

Inductive event : Type :=
| EvDeviceAlloc                        (* devm_iio_device_alloc *)
| EvMutexInit                          (* mutex_init(&data->lock) *)
| EvSetClientdata                      (* i2c_set_clientdata *)
| EvGpioRequest (gpio : Z) (flags : gpio_flags) (label : string)
                                       (* devm_gpio_request_one *)
| EvDevErr (msg : string) (gpio ret : Z)   (* dev_err *)
| EvBufferSetup                        (* iio_triggered_buffer_setup *)
| EvDeviceRegister                     (* iio_device_register *)
| EvDeviceUnregister                   (* iio_device_unregister *)
| EvBufferCleanup.                     (* iio_triggered_buffer_cleanup *)

(** The host of a probe.  The first six fields say what the collaborators
    answer: whether the allocation finds memory, the GPIO number the
    platform data points to (if there is platform data), [id->name], and
    the values returned by the GPIO request, the buffer setup and the
    registration.  The others are what the calls have built: the allocated
    object, whether the client's driver data points to it, the line
    obtained, the poll function of the triggered buffer, whether the device
    is registered. *)
Record host : Type := mkHost {
  alloc_ok : bool;
  platdata : option Z;
  id_name : string;
  gpio_request_ret : Z;
  buffer_setup_ret : Z;
  register_ret : Z;
  indio_dev : option iio_dev;
  clientdata : bool;
  gpio_line : option (Z * gpio_flags * string);
  poll_func : option (M Z);
  registered : bool;
  trace : list event
}.

Definition with_dev (d : option iio_dev) (h : host) : host :=
  mkHost (alloc_ok h) (platdata h) (id_name h) (gpio_request_ret h)
         (buffer_setup_ret h) (register_ret h) d (clientdata h)
         (gpio_line h) (poll_func h) (registered h) (trace h).

Definition with_clientdata (b : bool) (h : host) : host :=
  mkHost (alloc_ok h) (platdata h) (id_name h) (gpio_request_ret h)
         (buffer_setup_ret h) (register_ret h) (indio_dev h) b
         (gpio_line h) (poll_func h) (registered h) (trace h).

Definition with_gpio_line (l : option (Z * gpio_flags * string)) (h : host)
    : host :=
  mkHost (alloc_ok h) (platdata h) (id_name h) (gpio_request_ret h)
         (buffer_setup_ret h) (register_ret h) (indio_dev h) (clientdata h)
         l (poll_func h) (registered h) (trace h).

Definition with_poll_func (f : option (M Z)) (h : host) : host :=
  mkHost (alloc_ok h) (platdata h) (id_name h) (gpio_request_ret h)
         (buffer_setup_ret h) (register_ret h) (indio_dev h) (clientdata h)
         (gpio_line h) f (registered h) (trace h).

Definition with_registered (b : bool) (h : host) : host :=
  mkHost (alloc_ok h) (platdata h) (id_name h) (gpio_request_ret h)
         (buffer_setup_ret h) (register_ret h) (indio_dev h) (clientdata h)
         (gpio_line h) (poll_func h) b (trace h).

Definition record_event (e : event) (h : host) : host :=
  mkHost (alloc_ok h) (platdata h) (id_name h) (gpio_request_ret h)
         (buffer_setup_ret h) (register_ret h) (indio_dev h) (clientdata h)
         (gpio_line h) (poll_func h) (registered h) (trace h ++ [e]).

(** How a call ends: it returns, or it dereferences a null pointer. *)
Inductive outcome (A : Type) : Type :=
| Done (a : A)
| Oops.
Arguments Done {A} a.
Arguments Oops {A}.

Definition K (A : Type) : Type := host -> outcome A * host.

Definition ret {A : Type} (a : A) : K A := fun h => (Done a, h).

Definition bind {A B : Type} (m : K A) (k : A -> K B) : K B :=
  fun h =>
    match m h with
    | (Done a, h') => k a h'
    | (Oops, h') => (Oops, h')
    end.

Declare Scope attach_scope.
Delimit Scope attach_scope with attach.
Notation "x <- m ;; k" := (bind m (fun x => k))
  (at level 61, m at next level, right associativity) : attach_scope.
Notation "m ;; k" := (bind m (fun _ => k))
  (at level 61, right associativity) : attach_scope.

Definition result {A : Type} (m : K A) (h : host) : outcome A := fst (m h).
Definition after {A : Type} (m : K A) (h : host) : host := snd (m h).

(** The events a call adds to the trace of the host. *)
Definition emitted {A : Type} (m : K A) (h : host) : list event :=
  skipn (List.length (trace h)) (trace (after m h)).

(** *** The collaborators *)

(** Returns whether an object was allocated; the object is zeroed. *)
Definition devm_iio_device_alloc : K bool :=
  fun h =>
    if alloc_ok h
    then (Done true, record_event EvDeviceAlloc (with_dev (Some zeroed_dev) h))
    else (Done false, record_event EvDeviceAlloc h).

(** [*((unsigned * )dev_get_platdata(&client->dev))]: the pointer is
    dereferenced as it comes. *)
Definition deref_platdata : K Z :=
  fun h =>
    match platdata h with
    | Some gpio => (Done gpio, h)
    | None => (Oops, h)
    end.

(** An assignment through [indio_dev] or [data]. *)
Definition update_dev (f : iio_dev -> iio_dev) : K unit :=
  fun h =>
    match indio_dev h with
    | Some d => (Done tt, with_dev (Some (f d)) h)
    | None => (Oops, h)
    end.

Definition mutex_init : K unit :=
  fun h => (Done tt, record_event EvMutexInit h).

Definition i2c_set_clientdata : K unit :=
  fun h => (Done tt, record_event EvSetClientdata (with_clientdata true h)).

(** The object the client's driver data points to.  The callers hand the
    pointer on without a test, to calls that dereference it. *)
Definition i2c_get_clientdata : K iio_dev :=
  fun h =>
    match clientdata h, indio_dev h with
    | true, Some d => (Done d, h)
    | _, _ => (Oops, h)
    end.

(** The GPIO layer grants the line when it returns 0. *)
Definition devm_gpio_request_one (gpio : Z) (flags : gpio_flags)
    (label : string) : K Z :=
  fun h =>
    let r := gpio_request_ret h in
    (Done r,
     record_event (EvGpioRequest gpio flags label)
       (if r =? 0 then with_gpio_line (Some (gpio, flags, label)) h else h)).

Definition dev_err (msg : string) (gpio ret : Z) : K unit :=
  fun h => (Done tt, record_event (EvDevErr msg gpio ret) h).

(** The IIO core installs the poll function unless it returns an error. *)
Definition iio_triggered_buffer_setup (handler : M Z) : K Z :=
  fun h =>
    let r := buffer_setup_ret h in
    (Done r,
     record_event EvBufferSetup
       (if r <? 0 then h else with_poll_func (Some handler) h)).

(** The IIO core registers the device unless it returns an error. *)
Definition iio_device_register : K Z :=
  fun h =>
    let r := register_ret h in
    (Done r,
     record_event EvDeviceRegister
       (if r <? 0 then h else with_registered true h)).

Definition iio_device_unregister (d : iio_dev) : K unit :=
  fun h => (Done tt, record_event EvDeviceUnregister (with_registered false h)).

Definition iio_triggered_buffer_cleanup : K unit :=
  fun h => (Done tt, record_event EvBufferCleanup (with_poll_func None h)).

(** *** The driver *)

Open Scope attach_scope.

Definition set_rst_gpio (gpio : Z) (d : iio_dev) : iio_dev :=
  mk_iio_dev (info d) (name d) (modes d) (channels d) (num_channels d)
    (available_scan_masks d)
    (mk_mma8491_data (ctrl_reg1 (priv d)) (data_cfg (priv d)) gpio).

(** The assignments [indio_dev->info = ...] to
    [indio_dev->available_scan_masks = ...]. *)
Definition set_iio_fields (id_name : string) (d : iio_dev) : iio_dev :=
  mk_iio_dev (Some mma8491_info) id_name INDIO_DIRECT_MODE mma8491_channels
    (List.length mma8491_channels) mma8491_scan_masks (priv d).

Definition mma8491_probe : K Z :=
  allocated <- devm_iio_device_alloc ;;
  if negb allocated then ret (- ENOMEM)
  else
    gpio <- deref_platdata ;;
    update_dev (set_rst_gpio gpio) ;;
    mutex_init ;;
    i2c_set_clientdata ;;
    (fun h => update_dev (set_iio_fields (id_name h)) h) ;;
    r <- devm_gpio_request_one gpio GPIOF_OUT_INIT_LOW "mma8491-reset" ;;
    if negb (r =? 0) then
      dev_err "failed to request gpio %d: %d" gpio r ;;
      ret r
    else
      r <- iio_triggered_buffer_setup mma8491_trigger_handler ;;
      if r <? 0 then ret r
      else
        r <- iio_device_register ;;
        if r <? 0 then
          iio_triggered_buffer_cleanup ;;
          ret r
        else ret 0.

Definition mma8491_remove : K Z :=
  d <- i2c_get_clientdata ;;
  iio_device_unregister d ;;
  iio_triggered_buffer_cleanup ;;
  ret 0.

Close Scope attach_scope.

(** A host to which nothing has been attached yet. *)
Definition fresh_host (memory : bool) (pdata : option Z) (gpio_ret
    setup_ret reg_ret : Z) : host :=
  mkHost memory pdata "mma8491" gpio_ret setup_ret reg_ret
         None false None None false [].

(** What the probe returns on a host that has platform data, read off the
    answers of the collaborators. *)
Definition probe_verdict (h : host) : Z :=
  if negb (alloc_ok h) then - ENOMEM
  else if negb (gpio_request_ret h =? 0) then gpio_request_ret h
  else if buffer_setup_ret h <? 0 then buffer_setup_ret h
  else if register_ret h <? 0 then register_ret h
  else 0.

End Attach.

(** * Properties *)

(** ** The monad and the collaborators *)

Lemma bind_run {A B : Type} (m : M A) (k : A -> M B) (w : world) :
  bind m k w = k (fst (m w)) (snd (m w)).
Proof. unfold bind. destruct (m w); reflexivity. Qed.

(** ** Sample runs *)

Example sample_decode_zero : sample_decode 0 = 0.
Proof. reflexivity. Qed.

Example sample_decode_all_ones : sample_decode 0xFFFC = -1.
Proof. reflexivity. Qed.

Example sample_decode_alternating : sample_decode 0xAAA8 = -5462.
Proof. reflexivity. Qed.

Example sample_decode_alternating' : sample_decode 0x5554 = 5461.
Proof. reflexivity. Qed.

Example trigger_trace_ready :
  trace (after mma8491_trigger_handler world_streaming) =
  [EvReadByte 0; EvReadBlock 1 6;
   EvPush [0; 4; 0; 8; 255; 252; 0; 0; 0; 0; 0; 0; 0; 0; 0; 0] 0;
   EvNotifyDone].
Proof. reflexivity. Qed.

Example read_raw_trace_ready :
  mma8491_read_raw the_device (MMA8491_CHANNEL IIO_MOD_Z 2) IIO_CHAN_INFO_RAW
    world_ready
  = (mk_raw_result 1 (Some (-1)),
     after (mma8491_read_raw the_device (MMA8491_CHANNEL IIO_MOD_Z 2)
              IIO_CHAN_INFO_RAW) world_ready)
  /\ trace (after (mma8491_read_raw the_device (MMA8491_CHANNEL IIO_MOD_Z 2)
              IIO_CHAN_INFO_RAW) world_ready)
     = [EvGpioSet 17 1; EvMutexLock; EvReadByte 0; EvReadBlock 1 6;
        EvMutexUnlock; EvGpioSet 17 0].
Proof. split; reflexivity. Qed.

(** ** The ready poller *)

(** One turn of the loop, unfolded. *)
Lemma drdy_loop_step (n : nat) (w : world) :
  drdy_loop (S n) w =
  let r := byte_resp w (byte_reads w) in
  let w1 := record_event (EvReadByte MMA8491_STATUS) (next_byte_read w) in
  if r <? 0 then (r, w1)
  else if drdy_set r then (0, w1)
  else drdy_loop n (record_event (EvSleep 20) w1).
Proof.
  cbv zeta. change (drdy_loop (S n)) with
    (r <- i2c_smbus_read_byte_data MMA8491_STATUS ;;
     if r <? 0 then ret r
     else if drdy_set r then ret 0
     else msleep 20 ;; drdy_loop n).
  rewrite bind_run. simpl.
  destruct (byte_resp w (byte_reads w) <? 0); [reflexivity|].
  destruct (drdy_set (byte_resp w (byte_reads w))); reflexivity.
Qed.

Lemma keeps_polling_true (r : Z) :
  keeps_polling r = true -> (r <? 0) = false /\ drdy_set r = false.
Proof.
  unfold keeps_polling. intros H.
  apply andb_prop in H. destruct H as [H1 H2].
  apply negb_true_iff in H1. apply negb_true_iff in H2. now split.
Qed.

Lemma keeps_polling_false (r : Z) :
  keeps_polling r = false -> (r <? 0) = true \/ ((r <? 0) = false /\ drdy_set r = true).
Proof.
  unfold keeps_polling.
  destruct (r <? 0); destruct (drdy_set r); simpl; intros H;
    try discriminate; auto.
Qed.

(** The loop stops at the first status that does not keep it polling. *)
Lemma drdy_loop_stops (n : nat) :
  forall (w : world) (k : nat),
    (k < n)%nat ->
    (forall j, (j < k)%nat -> keeps_polling (status_at w j) = true) ->
    keeps_polling (status_at w k) = false ->
    result (drdy_loop n) w = drdy_verdict (status_at w k) /\
    trace (after (drdy_loop n) w)
      = trace w ++ poll_rounds k ++ [EvReadByte MMA8491_STATUS] /\
    byte_reads (after (drdy_loop n) w) = (byte_reads w + S k)%nat.
Proof.
  induction n as [|n IH]; intros w k Hk Hbefore Hstop; [lia|].
  unfold result, after. rewrite drdy_loop_step. cbv zeta.
  destruct k as [|k].
  - unfold status_at in Hstop. rewrite Nat.add_0_r in Hstop.
    unfold drdy_verdict, status_at. rewrite Nat.add_0_r.
    destruct (keeps_polling_false _ Hstop) as [Hneg | [Hpos Hrdy]].
    + rewrite Hneg. simpl. repeat split; lia.
    + rewrite Hpos, Hrdy. simpl. repeat split; lia.
  - assert (H0 : keeps_polling (status_at w 0) = true) by (apply Hbefore; lia).
    unfold status_at in H0. rewrite Nat.add_0_r in H0.
    destruct (keeps_polling_true _ H0) as [Hpos Hnrdy].
    rewrite Hpos, Hnrdy.
    set (w2 := record_event (EvSleep 20)
                 (record_event (EvReadByte MMA8491_STATUS) (next_byte_read w))).
    assert (Hshift : forall j, status_at w2 j = status_at w (S j)).
    { intros j. unfold status_at, w2. simpl. f_equal. lia. }
    destruct (IH w2 k) as (Hr & Ht & Hb).
    + lia.
    + intros j Hj. rewrite Hshift. apply Hbefore. lia.
    + rewrite Hshift. exact Hstop.
    + unfold result, after in Hr, Ht, Hb.
      rewrite Hr, Ht, Hb, Hshift. unfold w2. simpl.
      repeat split.
      * rewrite <- !app_assoc. reflexivity.
      * lia.
Qed.

(** With every status keeping it polling, the loop uses up its tries, logs
    and gives up. *)
Lemma drdy_loop_exhausts (n : nat) :
  forall (w : world),
    (forall j, (j < n)%nat -> keeps_polling (status_at w j) = true) ->
    result (drdy_loop n) w = - EIO /\
    trace (after (drdy_loop n) w)
      = trace w ++ poll_rounds n ++ [EvDevErr "data not ready"] /\
    byte_reads (after (drdy_loop n) w) = (byte_reads w + n)%nat.
Proof.
  induction n as [|n IH]; intros w Hall.
  - unfold result, after. simpl. repeat split. lia.
  - unfold result, after. rewrite drdy_loop_step. cbv zeta.
    assert (H0 : keeps_polling (status_at w 0) = true) by (apply Hall; lia).
    unfold status_at in H0. rewrite Nat.add_0_r in H0.
    destruct (keeps_polling_true _ H0) as [Hpos Hnrdy].
    rewrite Hpos, Hnrdy.
    set (w2 := record_event (EvSleep 20)
                 (record_event (EvReadByte MMA8491_STATUS) (next_byte_read w))).
    assert (Hshift : forall j, status_at w2 j = status_at w (S j)).
    { intros j. unfold status_at, w2. simpl. f_equal. lia. }
    destruct (IH w2) as (Hr & Ht & Hb).
    + intros j Hj. rewrite Hshift. apply Hall. lia.
    + unfold result, after in Hr, Ht, Hb.
      rewrite Hr, Ht, Hb. unfold w2. simpl.
      repeat split.
      * rewrite <- !app_assoc. reflexivity.
      * lia.
Qed.

(** Whatever the bus answers, the poller returns 0 or a negative number,
    emits only status reads, delays and the log line, and leaves the rest
    of the world alone. *)
Lemma drdy_loop_frame (n : nat) :
  forall (w : world),
    let w' := after (drdy_loop n) w in
    (result (drdy_loop n) w <= 0) /\
    (exists evs, trace w' = trace w ++ evs /\
                 forallb is_poll_event evs = true) /\
    same_device w w' /\
    block_reads w' = block_reads w /\
    gpio_level w' = gpio_level w /\
    lock_held w' = lock_held w.
Proof.
  induction n as [|n IH]; intros w; cbv zeta.
  - unfold result, after. simpl. repeat split.
    + unfold EIO. lia.
    + exists [EvDevErr "data not ready"]. split; reflexivity.
  - unfold result, after. rewrite drdy_loop_step. cbv zeta.
    destruct (byte_resp w (byte_reads w) <? 0) eqn:Hneg.
    + simpl. repeat split.
      * apply Z.ltb_lt in Hneg. lia.
      * exists [EvReadByte MMA8491_STATUS]. split; reflexivity.
    + destruct (drdy_set (byte_resp w (byte_reads w))).
      * simpl. repeat split.
        -- lia.
        -- exists [EvReadByte MMA8491_STATUS]. split; reflexivity.
      * set (w2 := record_event (EvSleep 20)
                 (record_event (EvReadByte MMA8491_STATUS) (next_byte_read w))).
        destruct (IH w2) as (Hr & (evs & Ht & Hevs) & Hd & Hb & Hg & Hl).
        unfold result, after in *.
        split; [exact Hr|].
        split.
        { exists (EvReadByte MMA8491_STATUS :: EvSleep 20 :: evs).
          split.
          - rewrite Ht. unfold w2. simpl. rewrite <- !app_assoc. reflexivity.
          - simpl. exact Hevs. }
        split.
        { destruct Hd as (d1 & d2 & d3 & d4 & d5).
          unfold same_device. rewrite d1, d2, d3, d4, d5.
          repeat split. }
        rewrite Hb, Hg, Hl. repeat split.
Qed.

(** ** Traces *)

Lemma skipn_length_app {A : Type} (l evs : list A) :
  skipn (List.length l) (l ++ evs) = evs.
Proof. induction l as [|x l IH]; simpl; auto. Qed.

Lemma emitted_of_trace {A : Type} (m : M A) (w : world) (evs : list event) :
  trace (after m w) = trace w ++ evs -> emitted m w = evs.
Proof. intros H. unfold emitted. rewrite H. apply skipn_length_app. Qed.

Lemma count_app (p : event -> bool) (l1 l2 : list event) :
  count p (l1 ++ l2) = (count p l1 + count p l2)%nat.
Proof. unfold count. rewrite filter_app, length_app. reflexivity. Qed.

Lemma count_none (p q : event -> bool) (evs : list event) :
  (forall e, q e = true -> p e = false) ->
  forallb q evs = true -> count p evs = 0%nat.
Proof.
  intros Hpq. induction evs as [|e evs IH]; simpl; intros H; [reflexivity|].
  apply andb_prop in H. destruct H as [He Hevs].
  unfold count in *. simpl. rewrite (Hpq e He). auto.
Qed.

Lemma poll_rounds_reads (k : nat) : count is_byte_read (poll_rounds k) = k.
Proof.
  induction k as [|k IH]; [reflexivity|].
  unfold count in *. simpl. rewrite IH. reflexivity.
Qed.

Lemma poll_rounds_sleeps (k : nat) : count is_sleep (poll_rounds k) = k.
Proof.
  induction k as [|k IH]; [reflexivity|].
  unfold count in *. simpl. rewrite IH. reflexivity.
Qed.

Lemma poll_rounds_quiet (k : nat) : count is_dev_err (poll_rounds k) = 0%nat.
Proof.
  induction k as [|k IH]; [reflexivity|].
  unfold count in *. simpl. exact IH.
Qed.

(** The test of the loop is the conjunction of the three ready bits. *)
Lemma drdy_set_ready_bits (status : Z) : drdy_set status = ready_bits status.
Proof.
  unfold drdy_set, ready_bits.
  change MMA8491_STATUS_DRDY with (Z.ones 3).
  rewrite Z.land_ones by lia.
  rewrite !Z.testbit_odd, !Z.shiftr_div_pow2 by lia.
  rewrite !Zodd_mod.
  change (Z.ones 3) with 7. change (2 ^ 0) with 1. change (2 ^ 1) with 2.
  change (2 ^ 2) with 4. change (2 ^ 3) with 8.
  destruct (status mod 8 =? 7) eqn:E;
    [apply Z.eqb_eq in E | apply Z.eqb_neq in E].
  - symmetry. rewrite !andb_true_iff, !Z.eqb_eq.
    repeat split; Z.div_mod_to_equations; lia.
  - symmetry. apply not_true_is_false. intros H.
    rewrite !andb_true_iff, !Z.eqb_eq in H. destruct H as [[H0 H1] H2].
    apply E. Z.div_mod_to_equations. lia.
Qed.

Lemma keeps_polling_status (r : Z) :
  0 <= r -> ready_bits r = false -> keeps_polling r = true.
Proof.
  intros Hpos Hrdy. unfold keeps_polling.
  rewrite drdy_set_ready_bits, Hrdy.
  destruct (Z.ltb_spec r 0); [lia | reflexivity].
Qed.

Lemma stops_polling_ready (r : Z) :
  0 <= r -> ready_bits r = true ->
  keeps_polling r = false /\ drdy_verdict r = 0.
Proof.
  intros Hpos Hrdy. unfold keeps_polling, drdy_verdict.
  rewrite drdy_set_ready_bits, Hrdy.
  destruct (Z.ltb_spec r 0); [lia | split; reflexivity].
Qed.

Lemma stops_polling_error (r : Z) :
  r < 0 -> keeps_polling r = false /\ drdy_verdict r = r.
Proof.
  intros Hneg. unfold keeps_polling, drdy_verdict.
  destruct (Z.ltb_spec r 0); [split; reflexivity | lia].
Qed.

(** C2.  Over any sequence of status bytes: when the three data-ready bits
    are all set for the first time at attempt [k] of the first 150, the
    poller returns 0 after exactly [k + 1] status reads, the failed ones
    each followed by a 20 ms delay, and reads no further; when they are
    never all set within 150 attempts, it makes exactly 150 status reads,
    each followed by the 20 ms delay, logs once and returns [-EIO]. *)
Theorem drdy_polls_until_ready (w : world)
    (Hbytes : forall k, (k < 150)%nat -> 0 <= status_at w k <= 255) :
  (forall k,
     (k < 150)%nat ->
     ready_bits (status_at w k) = true ->
     (forall j, (j < k)%nat -> ready_bits (status_at w j) = false) ->
     result mma8491_drdy w = 0 /\
     emitted mma8491_drdy w
       = poll_rounds k ++ [EvReadByte MMA8491_STATUS] /\
     count is_byte_read (emitted mma8491_drdy w) = S k /\
     count is_dev_err (emitted mma8491_drdy w) = 0%nat)
  /\
  ((forall k, (k < 150)%nat -> ready_bits (status_at w k) = false) ->
     result mma8491_drdy w = - EIO /\
     emitted mma8491_drdy w
       = poll_rounds 150 ++ [EvDevErr "data not ready"] /\
     count is_byte_read (emitted mma8491_drdy w) = 150%nat /\
     count is_sleep (emitted mma8491_drdy w) = 150%nat /\
     count is_dev_err (emitted mma8491_drdy w) = 1%nat).
Proof.
  split.
  - intros k Hk Hrdy Hbefore.
    destruct (stops_polling_ready (status_at w k)) as [Hstop Hv];
      [apply Hbytes; exact Hk | exact Hrdy |].
    destruct (drdy_loop_stops 150 w k Hk) as (Hr & Ht & _).
    + intros j Hj. apply keeps_polling_status.
      * apply Hbytes. lia.
      * apply Hbefore. exact Hj.
    + exact Hstop.
    + apply emitted_of_trace in Ht.
      unfold mma8491_drdy. rewrite Hr, Ht, Hv.
      rewrite !count_app, poll_rounds_reads, poll_rounds_quiet.
      repeat split. unfold count. simpl. lia.
  - intros Hnever.
    destruct (drdy_loop_exhausts 150 w) as (Hr & Ht & _).
    + intros j Hj. apply keeps_polling_status.
      * apply Hbytes. exact Hj.
      * apply Hnever. exact Hj.
    + apply emitted_of_trace in Ht.
      unfold mma8491_drdy. rewrite Hr, Ht.
      rewrite !count_app, poll_rounds_reads, poll_rounds_sleeps,
        poll_rounds_quiet.
      repeat split.
Qed.

Lemma drdy_polls_until_ready_witness :
  (result mma8491_drdy world_ready_third = 0 /\
   emitted mma8491_drdy world_ready_third
     = poll_rounds 2 ++ [EvReadByte MMA8491_STATUS] /\
   count is_byte_read (emitted mma8491_drdy world_ready_third) = 3%nat /\
   count is_dev_err (emitted mma8491_drdy world_ready_third) = 0%nat)
  /\
  (result mma8491_drdy world_never_ready = - EIO /\
   emitted mma8491_drdy world_never_ready
     = poll_rounds 150 ++ [EvDevErr "data not ready"] /\
   count is_byte_read (emitted mma8491_drdy world_never_ready) = 150%nat /\
   count is_sleep (emitted mma8491_drdy world_never_ready) = 150%nat /\
   count is_dev_err (emitted mma8491_drdy world_never_ready) = 1%nat).
Proof.
  split.
  - assert (Hbytes : forall k, (k < 150)%nat ->
                0 <= status_at world_ready_third k <= 255).
    { intros k _. unfold status_at. simpl.
      destruct (k <? 2)%nat; lia. }
    apply (proj1 (drdy_polls_until_ready world_ready_third Hbytes) 2%nat).
    + lia.
    + reflexivity.
    + intros j Hj. destruct j as [|[|j]]; [reflexivity | reflexivity | lia].
  - assert (Hbytes : forall k, (k < 150)%nat ->
                0 <= status_at world_never_ready k <= 255).
    { intros k _. unfold status_at. simpl. lia. }
    apply (proj2 (drdy_polls_until_ready world_never_ready Hbytes)).
    intros k _. reflexivity.
Defined.

(** C8.  When the status read of attempt [k] fails with a bus error, the
    earlier attempts having found the data not ready, the poller returns
    that very error; the failed read is the last thing it does: no delay,
    no further status read, no log line. *)
Theorem drdy_bus_error_short_circuits (w : world) (k : nat)
    (Hk : (k < 150)%nat)
    (Herr : status_at w k < 0)
    (Hbefore : forall j, (j < k)%nat ->
                 0 <= status_at w j /\ ready_bits (status_at w j) = false) :
  result mma8491_drdy w = status_at w k /\
  emitted mma8491_drdy w = poll_rounds k ++ [EvReadByte MMA8491_STATUS] /\
  count is_byte_read (emitted mma8491_drdy w) = S k /\
  count is_sleep (emitted mma8491_drdy w) = k /\
  count is_dev_err (emitted mma8491_drdy w) = 0%nat /\
  byte_reads (after mma8491_drdy w) = (byte_reads w + S k)%nat.
Proof.
  destruct (stops_polling_error (status_at w k) Herr) as [Hstop Hv].
  destruct (drdy_loop_stops 150 w k Hk) as (Hr & Ht & Hb).
  - intros j Hj. destruct (Hbefore j Hj) as [Hpos Hrdy].
    apply keeps_polling_status; assumption.
  - exact Hstop.
  - apply emitted_of_trace in Ht.
    unfold mma8491_drdy. rewrite Hr, Ht, Hv, Hb.
    rewrite !count_app, poll_rounds_reads, poll_rounds_sleeps,
      poll_rounds_quiet.
    repeat split; unfold count; simpl; lia.
Qed.

Lemma drdy_bus_error_short_circuits_witness :
  result mma8491_drdy world_poll_error = -6 /\
  emitted mma8491_drdy world_poll_error
    = [EvReadByte 0; EvSleep 20; EvReadByte 0] /\
  count is_byte_read (emitted mma8491_drdy world_poll_error) = 2%nat /\
  count is_sleep (emitted mma8491_drdy world_poll_error) = 1%nat /\
  count is_dev_err (emitted mma8491_drdy world_poll_error) = 0%nat /\
  byte_reads (after mma8491_drdy world_poll_error) = 2%nat.
Proof.
  apply (drdy_bus_error_short_circuits world_poll_error 1).
  - lia.
  - unfold status_at. simpl. lia.
  - intros j Hj. destruct j as [|j]; [|lia].
    unfold status_at. simpl. split; [lia | reflexivity].
Defined.

(** ** The burst reader *)

(** [mma8491_read], unfolded along the verdict of the poller. *)
Lemma mma8491_read_run (buf : list Z) (w : world) :
  mma8491_read buf w =
  if result mma8491_drdy w <? 0
  then ((result mma8491_drdy w, buf), after mma8491_drdy w)
  else i2c_smbus_read_i2c_block_data MMA8491_OUT_X (3 * sizeof_be16) buf
         (after mma8491_drdy w).
Proof.
  unfold mma8491_read. rewrite bind_run. unfold result, after.
  destruct (fst (mma8491_drdy w) <? 0); reflexivity.
Qed.

Lemma block_read_run (command length : Z) (buf : list Z) (w : world) :
  fst (fst (i2c_smbus_read_i2c_block_data command length buf w))
    = fst (block_resp w (block_reads w)) /\
  snd (i2c_smbus_read_i2c_block_data command length buf w)
    = record_event (EvReadBlock command length) (next_block_read w).
Proof.
  unfold i2c_smbus_read_i2c_block_data.
  destruct (block_resp w (block_reads w)); split; reflexivity.
Qed.

Lemma poll_event_is_read_event (evs : list event) :
  forallb is_poll_event evs = true -> forallb is_read_event evs = true.
Proof.
  induction evs as [|e evs IH]; simpl; [reflexivity|].
  intros H. apply andb_prop in H. destruct H as [He Hevs].
  unfold is_read_event at 1. rewrite He. simpl. auto.
Qed.

(** An acquisition emits only status reads, delays, the log line and the
    block read, and leaves the line, the mutex and the device alone. *)
Lemma mma8491_read_frame (buf : list Z) (w : world) :
  let w' := after (mma8491_read buf) w in
  (exists evs, trace w' = trace w ++ evs /\
               forallb is_read_event evs = true) /\
  same_device w w' /\
  gpio_level w' = gpio_level w /\
  lock_held w' = lock_held w.
Proof.
  cbv zeta. unfold after. rewrite mma8491_read_run.
  fold (after mma8491_drdy w).
  destruct (drdy_loop_frame 150 w) as (_ & (evs & Ht & Hevs) & Hd & Hb & Hg & Hl).
  fold mma8491_drdy in Ht, Hd, Hb, Hg, Hl.
  destruct (result mma8491_drdy w <? 0).
  - simpl. repeat split; try assumption; try apply Hd.
    exists evs. split; [exact Ht | apply poll_event_is_read_event, Hevs].
  - destruct (block_read_run MMA8491_OUT_X (3 * sizeof_be16) buf
                (after mma8491_drdy w)) as [_ Hw].
    rewrite Hw. simpl.
    repeat split; try assumption; try apply Hd.
    exists (evs ++ [EvReadBlock MMA8491_OUT_X (3 * sizeof_be16)]).
    split.
    + rewrite Ht, app_assoc. reflexivity.
    + rewrite forallb_app, (poll_event_is_read_event _ Hevs). reflexivity.
Qed.

(** C9.  The burst reader first runs the ready poller.  When the poller
    fails, its error is returned, the buffer is left as it was and no block
    read is issued.  Otherwise the poller has returned 0, and exactly one
    block read follows everything the poller did: six bytes from register
    0x01; what the bus answers to it, error or not, is returned as it is. *)
Theorem burst_read_after_ready (w : world) (buf : list Z) :
  (result mma8491_drdy w < 0 ->
     result (mma8491_read buf) w = (result mma8491_drdy w, buf) /\
     emitted (mma8491_read buf) w = emitted mma8491_drdy w /\
     count is_block_read (emitted (mma8491_read buf) w) = 0%nat)
  /\
  (0 <= result mma8491_drdy w ->
     result mma8491_drdy w = 0 /\
     emitted (mma8491_read buf) w
       = emitted mma8491_drdy w ++ [EvReadBlock 0x01 6] /\
     count is_block_read (emitted (mma8491_read buf) w) = 1%nat /\
     fst (result (mma8491_read buf) w)
       = fst (block_resp w (block_reads w))).
Proof.
  destruct (drdy_loop_frame 150 w)
    as (Hle & (evs & Ht & Hevs) & Hd & Hb & _ & _).
  fold mma8491_drdy in Hle, Ht, Hd, Hb.
  assert (Hquiet : count is_block_read evs = 0%nat).
  { apply (count_none is_block_read is_poll_event); [|exact Hevs].
    intros [] He; simpl in *; try discriminate; reflexivity. }
  pose proof (emitted_of_trace _ _ _ Ht) as Hem.
  split; intros Hr.
  - assert (Hneg : (result mma8491_drdy w <? 0) = true)
      by (apply Z.ltb_lt; exact Hr).
    assert (Hrun : mma8491_read buf w
                   = ((result mma8491_drdy w, buf), after mma8491_drdy w))
      by (rewrite mma8491_read_run, Hneg; reflexivity).
    assert (Htrace : trace (after (mma8491_read buf) w) = trace w ++ evs)
      by (unfold after at 1; rewrite Hrun; exact Ht).
    rewrite (emitted_of_trace _ _ _ Htrace), Hem.
    split; [unfold result at 1; rewrite Hrun; reflexivity|].
    split; [reflexivity | exact Hquiet].
  - assert (Hpos : (result mma8491_drdy w <? 0) = false)
      by (apply Z.ltb_ge; exact Hr).
    destruct (block_read_run MMA8491_OUT_X (3 * sizeof_be16) buf
                (after mma8491_drdy w)) as [Hres Hw].
    assert (Htrace : trace (after (mma8491_read buf) w)
                     = trace w ++ evs ++ [EvReadBlock 0x01 6]).
    { unfold after at 1. rewrite mma8491_read_run, Hpos, Hw. simpl.
      rewrite Ht, <- app_assoc. reflexivity. }
    rewrite (emitted_of_trace _ _ _ Htrace), Hem.
    split; [lia|]. split; [reflexivity|]. split.
    + rewrite count_app, Hquiet. reflexivity.
    + unfold result at 1. rewrite mma8491_read_run, Hpos, Hres.
      destruct Hd as (_ & Hblock & _). rewrite Hblock, Hb. reflexivity.
Qed.

Lemma burst_read_after_ready_witness :
  (result (mma8491_read [1; 2; 3; 4; 5; 6]) world_never_ready
     = (- EIO, [1; 2; 3; 4; 5; 6]) /\
   count is_block_read
     (emitted (mma8491_read [1; 2; 3; 4; 5; 6]) world_never_ready) = 0%nat)
  /\
  (emitted (mma8491_read [1; 2; 3; 4; 5; 6]) world_burst_error
     = [EvReadByte 0; EvReadBlock 1 6] /\
   fst (result (mma8491_read [1; 2; 3; 4; 5; 6]) world_burst_error) = -6).
Proof.
  split.
  - destruct (proj1 (burst_read_after_ready world_never_ready
                       [1; 2; 3; 4; 5; 6])) as (Hr & _ & Hc).
    + vm_compute. reflexivity.
    + split; [exact Hr | exact Hc].
  - destruct (proj2 (burst_read_after_ready world_burst_error
                       [1; 2; 3; 4; 5; 6])) as (_ & He & _ & Hr).
    + vm_compute. discriminate.
    + split; [exact He | exact Hr].
Defined.

(** ** The triggered pipeline *)

Lemma read_event_cases (e : event) :
  is_read_event e = true ->
  is_gpio_set e = false /\ is_mutex_op e = false.
Proof. destruct e; simpl; intros H; try discriminate; split; reflexivity. Qed.

(** The handler, unfolded along the outcome of the acquisition. *)
Lemma trigger_handler_run (w : world) :
  let buf0 := result (stack_array 16) w in
  let rb := result (mma8491_read buf0) w in
  let w1 := after (mma8491_read buf0) w in
  mma8491_trigger_handler w =
  (IRQ_HANDLED,
   record_event EvNotifyDone
     (if fst rb <? 0 then w1
      else record_event (EvPush (snd rb) (time_ns w1)) w1)).
Proof.
  cbv zeta. unfold mma8491_trigger_handler, result, after.
  rewrite bind_run.
  set (buf0 := fst (stack_array 16 w)).
  change (snd (stack_array 16 w)) with w. cbv beta.
  rewrite bind_run. cbv beta.
  destruct (fst (fst (mma8491_read buf0 w)) <? 0); reflexivity.
Qed.

(** The events of the handler: those of the acquisition, the push when
    the acquisition did not fail, the completion signal. *)
Lemma trigger_handler_events (w : world) :
  let buf0 := result (stack_array 16) w in
  let rb := result (mma8491_read buf0) w in
  result mma8491_trigger_handler w = IRQ_HANDLED /\
  emitted mma8491_trigger_handler w
    = emitted (mma8491_read buf0) w
      ++ (if fst rb <? 0 then [] else [EvPush (snd rb) (time_ns w)])
      ++ [EvNotifyDone] /\
  forallb is_read_event (emitted (mma8491_read buf0) w) = true.
Proof.
  cbv zeta.
  set (buf0 := result (stack_array 16) w).
  destruct (mma8491_read_frame buf0 w)
    as ((evs & Ht & Hevs) & Hd & _ & _).
  pose proof (emitted_of_trace _ _ _ Ht) as Hem.
  assert (Htime : time_ns (after (mma8491_read buf0) w) = time_ns w)
    by apply Hd.
  pose proof (trigger_handler_run w) as Hrun. cbv zeta in Hrun.
  fold buf0 in Hrun.
  assert (Htrace :
    trace (after mma8491_trigger_handler w)
    = trace w ++ evs
      ++ (if fst (result (mma8491_read buf0) w) <? 0 then []
          else [EvPush (snd (result (mma8491_read buf0) w)) (time_ns w)])
      ++ [EvNotifyDone]).
  { unfold after at 1. rewrite Hrun. simpl snd.
    destruct (fst (result (mma8491_read buf0) w) <? 0); simpl.
    - rewrite Ht, <- app_assoc. reflexivity.
    - rewrite Ht, Htime, <- !app_assoc. reflexivity. }
  rewrite (emitted_of_trace _ _ _ Htrace), Hem.
  split; [unfold result at 1; rewrite Hrun; reflexivity|].
  split; [reflexivity | exact Hevs].
Qed.

(** C6.  Whatever happens during the acquisition, the handler signals
    completion to the trigger exactly once, as the last thing it does, and
    returns [IRQ_HANDLED].  It pushes the buffer with the current time
    exactly when the acquisition did not fail, after the acquisition and
    before the completion signal; when the acquisition failed (poller
    timeout, bus error in a status read or in the block read) nothing is
    pushed. *)
Theorem trigger_pushes_iff_acquired (w : world) :
  let buf0 := result (stack_array 16) w in
  let rb := result (mma8491_read buf0) w in
  result mma8491_trigger_handler w = IRQ_HANDLED /\
  emitted mma8491_trigger_handler w
    = emitted (mma8491_read buf0) w
      ++ (if fst rb <? 0 then [] else [EvPush (snd rb) (time_ns w)])
      ++ [EvNotifyDone] /\
  count is_push (emitted mma8491_trigger_handler w)
    = (if fst rb <? 0 then 0%nat else 1%nat) /\
  count is_notify_done (emitted mma8491_trigger_handler w) = 1%nat.
Proof.
  cbv zeta.
  destruct (trigger_handler_events w) as (Hr & Hem & Hevs).
  cbv zeta in Hem, Hevs.
  set (buf0 := result (stack_array 16) w) in *.
  split; [exact Hr|]. split; [exact Hem|].
  rewrite Hem, !count_app.
  rewrite (count_none is_push is_read_event _),
          (count_none is_notify_done is_read_event _); try exact Hevs;
    try (intros [] He; simpl in *; try discriminate; reflexivity).
  destruct (fst (result (mma8491_read buf0) w) <? 0); split; reflexivity.
Qed.

Example trigger_timeout_drops_sample :
  emitted mma8491_trigger_handler world_never_ready
  = poll_rounds 150 ++ [EvDevErr "data not ready"; EvNotifyDone].
Proof. vm_compute. reflexivity. Qed.

Example trigger_poll_error_drops_sample :
  emitted mma8491_trigger_handler world_poll_error
  = [EvReadByte 0; EvSleep 20; EvReadByte 0; EvNotifyDone].
Proof. vm_compute. reflexivity. Qed.

Example trigger_burst_error_drops_sample :
  emitted mma8491_trigger_handler world_burst_error
  = [EvReadByte 0; EvReadBlock 1 6; EvNotifyDone].
Proof. vm_compute. reflexivity. Qed.

(** The handler never drives a GPIO line and never takes the mutex. *)
Lemma trigger_handler_never_gates (w : world) :
  count is_gpio_set (emitted mma8491_trigger_handler w) = 0%nat /\
  count is_mutex_op (emitted mma8491_trigger_handler w) = 0%nat.
Proof.
  destruct (trigger_handler_events w) as (_ & Hem & Hevs).
  cbv zeta in Hem, Hevs. rewrite Hem. clear Hem.
  set (buf0 := result (stack_array 16) w) in *.
  rewrite !count_app.
  rewrite (count_none is_gpio_set is_read_event _),
          (count_none is_mutex_op is_read_event _); try exact Hevs;
    try (intros e He; apply read_event_cases; exact He).
  destruct (fst (result (mma8491_read buf0) w) <? 0); split; reflexivity.
Qed.

(** ** The on-demand path *)

(** [read_raw] for a raw query outside streaming mode, unfolded along the
    outcome of the acquisition. *)
Lemma read_raw_run (data : mma8491_data) (chan : iio_chan_spec) (w : world) :
  buffer_enabled w = false ->
  let buf0 := result (stack_array 6) w in
  let w0 := on_demand_entry data w in
  let rb := result (mma8491_read buf0) w0 in
  mma8491_read_raw data chan IIO_CHAN_INFO_RAW w =
  ((if fst rb <? 0 then mk_raw_result (fst rb) None
    else mk_raw_result IIO_VAL_INT
           (Some (sample_decode (be16_at (snd rb) (scan_index chan))))),
   on_demand_exit data (after (mma8491_read buf0) w0)).
Proof.
  intros Hoff. cbv zeta.
  unfold mma8491_read_raw, result, after.
  rewrite bind_run.
  change (fst (iio_buffer_enabled w)) with (buffer_enabled w).
  change (snd (iio_buffer_enabled w)) with w.
  rewrite Hoff.
  rewrite bind_run.
  set (buf0 := fst (stack_array 6 w)).
  change (snd (stack_array 6 w)) with w. cbv beta.
  rewrite bind_run. rewrite bind_run.
  change (snd (mutex_lock (snd (gpio_set_value_cansleep (rst_gpio data) 1 w))))
    with (on_demand_entry data w).
  cbv beta. rewrite bind_run. cbv beta.
  set (m := mma8491_read buf0 (on_demand_entry data w)).
  destruct (fst (fst m) <? 0); reflexivity.
Qed.

Section ReadEvents.

Variable evs : list event.
Hypothesis Hevs : forallb is_read_event evs = true.

Lemma under_lock_read_events (p : event -> bool) (rest : list event) :
  under_lock p true (evs ++ rest) = under_lock p true rest.
Proof.
  induction evs as [|e l IH]; [reflexivity|].
  simpl in Hevs. apply andb_prop in Hevs. destruct Hevs as [He Hl].
  destruct e; simpl in He; try discriminate; simpl;
    rewrite (IH Hl); destruct (p _); reflexivity.
Qed.

Lemma reads_powered_read_events (gpio : Z) (rest : list event) :
  reads_powered gpio 1 (evs ++ rest) = reads_powered gpio 1 rest.
Proof.
  induction evs as [|e l IH]; [reflexivity|].
  simpl in Hevs. apply andb_prop in Hevs. destruct Hevs as [He Hl].
  destruct e; simpl in He; try discriminate; simpl; rewrite (IH Hl);
    reflexivity.
Qed.

Lemma lock_while_powered_read_events (gpio lvl : Z) (rest : list event) :
  lock_while_powered gpio lvl (evs ++ rest)
    = lock_while_powered gpio lvl rest.
Proof.
  induction evs as [|e l IH]; [reflexivity|].
  simpl in Hevs. apply andb_prop in Hevs. destruct Hevs as [He Hl].
  destruct e; simpl in He; try discriminate; simpl; rewrite (IH Hl);
    reflexivity.
Qed.

Lemma line_after_read_events (gpio lvl : Z) (rest : list event) :
  line_after gpio lvl (evs ++ rest) = line_after gpio lvl rest.
Proof.
  induction evs as [|e l IH]; [reflexivity|].
  simpl in Hevs. apply andb_prop in Hevs. destruct Hevs as [He Hl].
  destruct e; simpl in He; try discriminate; simpl; rewrite (IH Hl);
    reflexivity.
Qed.

Lemma outside_lock_read_events (held : bool) (rest : list event) :
  outside_lock is_gpio_set held (evs ++ rest)
    = outside_lock is_gpio_set held rest.
Proof.
  induction evs as [|e l IH]; [reflexivity|].
  simpl in Hevs. apply andb_prop in Hevs. destruct Hevs as [He Hl].
  destruct e; simpl in He; try discriminate; simpl; rewrite (IH Hl);
    reflexivity.
Qed.

End ReadEvents.

Lemma on_demand_entry_trace (data : mma8491_data) (w : world) :
  trace (on_demand_entry data w)
    = trace w ++ [EvGpioSet (rst_gpio data) 1; EvMutexLock].
Proof.
  unfold on_demand_entry, after. simpl. rewrite <- app_assoc. reflexivity.
Qed.

Lemma on_demand_exit_trace (data : mma8491_data) (w1 : world) :
  trace (on_demand_exit data w1)
    = trace w1 ++ [EvMutexUnlock; EvGpioSet (rst_gpio data) 0].
Proof.
  unfold on_demand_exit, after. simpl. rewrite <- app_assoc. reflexivity.
Qed.

(** The events of an on-demand read outside streaming mode: line high,
    mutex taken, the acquisition, mutex released, line low. *)
Lemma read_raw_events (data : mma8491_data) (chan : iio_chan_spec)
    (w : world) :
  buffer_enabled w = false ->
  exists evs,
    emitted (mma8491_read_raw data chan IIO_CHAN_INFO_RAW) w
      = EvGpioSet (rst_gpio data) 1 :: EvMutexLock :: evs
        ++ [EvMutexUnlock; EvGpioSet (rst_gpio data) 0] /\
    forallb is_read_event evs = true /\
    evs = emitted (mma8491_read (result (stack_array 6) w))
            (on_demand_entry data w).
Proof.
  intros Hoff.
  pose proof (read_raw_run data chan w Hoff) as Hrun. cbv zeta in Hrun.
  set (buf0 := result (stack_array 6) w) in *.
  destruct (mma8491_read_frame buf0 (on_demand_entry data w))
    as ((evs & Ht & Hevs) & _).
  exists evs. split; [|split; [exact Hevs|]].
  - apply emitted_of_trace. unfold after at 1. rewrite Hrun.
    cbv [snd]. rewrite on_demand_exit_trace, Ht, on_demand_entry_trace.
    rewrite <- !app_assoc. reflexivity.
  - symmetry. apply emitted_of_trace. exact Ht.
Qed.

(** ** The sample decoder *)

Lemma sample_decode_cases (word : Z) :
  0 <= word < 65536 ->
  sample_decode word
  = if word <? 32768 then word / 4 else word / 4 - 16384.
Proof.
  intros Hw. unfold sample_decode, CInt.sign_extend32, CInt.to_s32, CInt.to_u32.
  change (31 - 13) with 18.
  rewrite !Z.shiftr_div_pow2, Z.shiftl_mul_pow2 by lia.
  change (2 ^ 2) with 4.
  change (2 ^ 18) with 262144. change (2 ^ 32) with 4294967296.
  change (2 ^ 31) with 2147483648.
  assert (Hq : 0 <= word / 4 < 16384) by (Z.div_mod_to_equations; lia).
  set (q := word / 4) in *.
  rewrite (Z.mod_small q) by lia.
  rewrite !(Z.mod_small (q * 262144)) by lia.
  destruct (Z.ltb_spec (q * 262144) 2147483648);
  destruct (Z.ltb_spec word 32768); subst q;
  Z.div_mod_to_equations; lia.
Qed.

Lemma to_s16_cases (word : Z) :
  0 <= word < 65536 ->
  CInt.to_s16 word = if word <? 32768 then word else word - 65536.
Proof.
  intros Hw. unfold CInt.to_s16.
  change (2 ^ 16) with 65536. change (2 ^ 15) with 32768.
  rewrite Z.mod_small by lia. reflexivity.
Qed.

Lemma testbit_15 (word : Z) :
  0 <= word < 65536 -> Z.testbit word 15 = negb (word <? 32768).
Proof.
  intros Hw. rewrite Z.testbit_odd, Z.shiftr_div_pow2, Zodd_mod by lia.
  change (2 ^ 15) with 32768.
  destruct (Z.ltb_spec word 32768); simpl.
  - apply Z.eqb_neq. Z.div_mod_to_equations. lia.
  - apply Z.eqb_eq. Z.div_mod_to_equations. lia.
Qed.

(** C3.  For every 16-bit word, the decoded value is the sign-extension at
    bit position 13 of [word >> 2]; it is also the word read as a signed
    16-bit number and shifted right arithmetically by 2, that is, the 14-bit
    field held in the upper bits of the word, whose sign bit is bit 15 of
    the word; it lies in the range of a 14-bit two's-complement field. *)
Theorem decode_is_sign_extension (word : Z) (Hword : 0 <= word < 65536) :
  sample_decode word = DecoderSpec.decode word /\
  sample_decode word = DecoderSpec.decode_arith word /\
  sample_decode word
    = Z.shiftr word 2 - (if Z.testbit word 15 then 2 ^ 14 else 0) /\
  DecoderSpec.signed_min 14 <= sample_decode word <= DecoderSpec.signed_max 14.
Proof.
  rewrite (sample_decode_cases word Hword).
  unfold DecoderSpec.decode, DecoderSpec.decode_arith,
    DecoderSpec.sign_extend_at, DecoderSpec.signed_min, DecoderSpec.signed_max.
  rewrite (to_s16_cases word Hword), (testbit_15 word Hword).
  assert (Hb13 : Z.testbit (Z.shiftr word 2) 13 = Z.testbit word 15).
  { rewrite Z.shiftr_spec by lia. reflexivity. }
  rewrite Hb13, (testbit_15 word Hword).
  rewrite !Z.shiftr_div_pow2 by lia.
  change (2 ^ 2) with 4. change (2 ^ (13 + 1)) with 16384.
  change (2 ^ 14) with 16384. change (2 ^ (14 - 1)) with 8192.
  destruct (Z.ltb_spec word 32768); simpl negb; cbv iota;
    repeat split; Z.div_mod_to_equations; lia.
Qed.

Lemma decode_is_sign_extension_witness :
  sample_decode 0xAAA8 = DecoderSpec.decode 0xAAA8 /\
  sample_decode 0xAAA8 = DecoderSpec.decode_arith 0xAAA8 /\
  sample_decode 0xAAA8
    = Z.shiftr 0xAAA8 2 - (if Z.testbit 0xAAA8 15 then 2 ^ 14 else 0) /\
  DecoderSpec.signed_min 14 <= sample_decode 0xAAA8
    <= DecoderSpec.signed_max 14.
Proof. apply (decode_is_sign_extension 0xAAA8). lia. Defined.

(** C4, as the specification states it, fails: the word 0x3FFC decodes to
    4095, which is the least value of no two's-complement field. *)
Lemma decode_3ffc_is_not_the_minimum :
  sample_decode 0x3FFC = 4095 /\
  ~ (exists width, sample_decode 0x3FFC = DecoderSpec.signed_min width).
Proof.
  split; [reflexivity|].
  intros [width H]. change (sample_decode 0x3FFC) with 4095 in H.
  unfold DecoderSpec.signed_min in H.
  pose proof (Z.pow_nonneg 2 (width - 1)). lia.
Qed.

(** C4, amended.  The word 0x3FFC decodes to 4095: its two upper bits are
    clear, so the 14-bit field is positive.  The word 0x0004 decodes to 1.
    The least value of the 14-bit field, -8192, is what 0x8000 decodes
    to. *)
Theorem decode_fixed_inputs :
  sample_decode 0x3FFC = 4095 /\
  sample_decode 0x0004 = 1 /\
  sample_decode 0x8000 = DecoderSpec.signed_min 14.
Proof. repeat split. Qed.

(** ** Mode exclusion, power gating and locking *)

(** C5.  A raw query made while the triggered buffer is enabled returns
    [-EBUSY] without storing a value and leaves the world exactly as it
    was: nothing is added to the trace, so no bus transfer is made, the
    enable line is not driven and the mutex is not taken. *)
Theorem read_raw_busy_while_streaming (data : mma8491_data)
    (chan : iio_chan_spec) (w : world)
    (Hstreaming : buffer_enabled w = true) :
  mma8491_read_raw data chan IIO_CHAN_INFO_RAW w
    = (mk_raw_result (- EBUSY) None, w) /\
  emitted (mma8491_read_raw data chan IIO_CHAN_INFO_RAW) w = [].
Proof.
  assert (Hrun : mma8491_read_raw data chan IIO_CHAN_INFO_RAW w
                 = (mk_raw_result (- EBUSY) None, w)).
  { unfold mma8491_read_raw. rewrite bind_run.
    change (fst (iio_buffer_enabled w)) with (buffer_enabled w).
    rewrite Hstreaming. reflexivity. }
  split; [exact Hrun|].
  apply emitted_of_trace. unfold after. rewrite Hrun. simpl.
  rewrite app_nil_r. reflexivity.
Qed.

Lemma read_raw_busy_while_streaming_witness :
  mma8491_read_raw the_device (MMA8491_CHANNEL IIO_MOD_X 0)
    IIO_CHAN_INFO_RAW world_streaming
    = (mk_raw_result (- EBUSY) None, world_streaming) /\
  emitted (mma8491_read_raw the_device (MMA8491_CHANNEL IIO_MOD_X 0)
             IIO_CHAN_INFO_RAW) world_streaming = [].
Proof.
  apply (read_raw_busy_while_streaming the_device
           (MMA8491_CHANNEL IIO_MOD_X 0) world_streaming).
  reflexivity.
Defined.

(** The on-demand path frames its bus reads with the enable line: high
    before the first read, low after the last. *)
Lemma read_raw_power_gated (data : mma8491_data) (chan : iio_chan_spec)
    (w : world) :
  buffer_enabled w = false ->
  power_gated (rst_gpio data)
    (emitted (mma8491_read_raw data chan IIO_CHAN_INFO_RAW) w) = true /\
  gpio_level (after (mma8491_read_raw data chan IIO_CHAN_INFO_RAW) w)
    (rst_gpio data) = 0.
Proof.
  intros Hoff.
  destruct (read_raw_events data chan w Hoff) as (evs & Hem & Hevs & _).
  split.
  - rewrite Hem. unfold power_gated. simpl.
    rewrite Z.eqb_refl.
    rewrite (reads_powered_read_events evs Hevs),
            (line_after_read_events evs Hevs).
    simpl. rewrite Z.eqb_refl. reflexivity.
  - unfold after. rewrite (read_raw_run data chan w Hoff).
    simpl. rewrite Z.eqb_refl. reflexivity.
Qed.

(** C1, at a trigger event with the data ready at once: the handler reads
    the status register and the axis registers although nothing has driven
    the enable line, which is low before, during and after; the line does
    not frame the bus reads as it does on the on-demand path. *)
Theorem trigger_handler_reads_unpowered :
  emitted mma8491_trigger_handler world_streaming
    = [EvReadByte 0; EvReadBlock 1 6;
       EvPush [0; 4; 0; 8; 255; 252; 0; 0; 0; 0; 0; 0; 0; 0; 0; 0] 0;
       EvNotifyDone] /\
  power_gated (rst_gpio the_device)
    (emitted mma8491_trigger_handler world_streaming) = false /\
  count is_gpio_set (emitted mma8491_trigger_handler world_streaming)
    = 0%nat /\
  gpio_level world_streaming (rst_gpio the_device) = 0 /\
  gpio_level (after mma8491_trigger_handler world_streaming)
    (rst_gpio the_device) = 0.
Proof. repeat split. Qed.

(** On an on-demand read the enable line is driven while the mutex is not
    held. *)
Lemma read_raw_gpio_outside_lock :
  emitted (mma8491_read_raw the_device (MMA8491_CHANNEL IIO_MOD_X 0)
             IIO_CHAN_INFO_RAW) world_ready
    = [EvGpioSet 17 1; EvMutexLock; EvReadByte 0; EvReadBlock 1 6;
       EvMutexUnlock; EvGpioSet 17 0] /\
  under_lock is_gpio_set false
    (emitted (mma8491_read_raw the_device (MMA8491_CHANNEL IIO_MOD_X 0)
                IIO_CHAN_INFO_RAW) world_ready) = false.
Proof. split; reflexivity. Qed.

(** The order of the calls of one on-demand read, taken alone.  Outside
    streaming mode the enable
    line is driven high, then the mutex is taken, then the acquisition
    runs, then the mutex is released, then the line is driven low.  The
    mutex is held exactly around the acquisition: every bus read is made
    under it, it is taken and released while the line is high, and the two
    writes to the line are made outside it. *)
Theorem read_raw_lock_inside_power_window (data : mma8491_data)
    (chan : iio_chan_spec) (w : world)
    (Hoff : buffer_enabled w = false) :
  let evs_all := emitted (mma8491_read_raw data chan IIO_CHAN_INFO_RAW) w in
  (exists evs,
     evs_all = EvGpioSet (rst_gpio data) 1 :: EvMutexLock :: evs
               ++ [EvMutexUnlock; EvGpioSet (rst_gpio data) 0] /\
     forallb is_read_event evs = true) /\
  under_lock is_bus_read false evs_all = true /\
  lock_while_powered (rst_gpio data) 0 evs_all = true /\
  outside_lock is_gpio_set false evs_all = true /\
  count is_mutex_op evs_all = 2%nat /\
  count is_gpio_set evs_all = 2%nat.
Proof.
  cbv zeta.
  destruct (read_raw_events data chan w Hoff) as (evs & Hem & Hevs & _).
  rewrite Hem. split; [exists evs; split; [reflexivity | exact Hevs]|].
  split; [|split; [|split]].
  - simpl. rewrite (under_lock_read_events evs Hevs). reflexivity.
  - simpl. rewrite Z.eqb_refl. simpl.
    rewrite (lock_while_powered_read_events evs Hevs). reflexivity.
  - simpl. rewrite (outside_lock_read_events evs Hevs). reflexivity.
  - change (EvGpioSet (rst_gpio data) 1 :: EvMutexLock
              :: evs ++ [EvMutexUnlock; EvGpioSet (rst_gpio data) 0])
      with ([EvGpioSet (rst_gpio data) 1; EvMutexLock]
              ++ evs ++ [EvMutexUnlock; EvGpioSet (rst_gpio data) 0]).
    rewrite !count_app.
    rewrite (count_none is_mutex_op is_read_event evs),
            (count_none is_gpio_set is_read_event evs); try exact Hevs;
      try (intros e He; apply read_event_cases; exact He).
    split; reflexivity.
Qed.

Lemma read_raw_lock_inside_power_window_witness :
  let evs_all :=
    emitted (mma8491_read_raw the_device (MMA8491_CHANNEL IIO_MOD_X 0)
               IIO_CHAN_INFO_RAW) world_ready_third in
  (exists evs,
     evs_all = EvGpioSet 17 1 :: EvMutexLock :: evs
               ++ [EvMutexUnlock; EvGpioSet 17 0] /\
     forallb is_read_event evs = true) /\
  under_lock is_bus_read false evs_all = true /\
  lock_while_powered 17 0 evs_all = true /\
  outside_lock is_gpio_set false evs_all = true /\
  count is_mutex_op evs_all = 2%nat /\
  count is_gpio_set evs_all = 2%nat.
Proof.
  apply (read_raw_lock_inside_power_window the_device
           (MMA8491_CHANNEL IIO_MOD_X 0) world_ready_third).
  reflexivity.
Defined.

(** ** The value an on-demand read reports *)

Lemma be16_at_store_block (bytes buf : list Z) (i : nat) :
  List.length buf = 6%nat -> (6 <= List.length bytes)%nat -> (i < 3)%nat ->
  be16_at (store_block 6 bytes buf) i
    = CInt.be16_to_cpu (nth (2 * i) bytes 0) (nth (2 * i + 1) bytes 0).
Proof.
  intros Hbuf Hbytes Hi.
  destruct buf as [|c0 [|c1 [|c2 [|c3 [|c4 [|c5 [|c6 buf]]]]]]];
    simpl in Hbuf; try discriminate.
  destruct bytes as [|b0 [|b1 [|b2 [|b3 [|b4 [|b5 bytes]]]]]];
    simpl in Hbytes; try lia.
  destruct i as [|[|[|i]]]; try lia; reflexivity.
Qed.

(** The poller and the block read of an on-demand read, when the data
    gets ready at attempt [k] and the bus then answers [(n, bytes)]. *)
Lemma mma8491_read_ready (buf : list Z) (w : world) (k : nat) (n : Z)
    (bytes : list Z) :
  (k < 150)%nat ->
  0 <= status_at w k /\ ready_bits (status_at w k) = true ->
  (forall j, (j < k)%nat ->
     0 <= status_at w j /\ ready_bits (status_at w j) = false) ->
  block_resp w (block_reads w) = (n, bytes) ->
  0 <= n ->
  result (mma8491_read buf) w
    = (n, store_block (3 * sizeof_be16) bytes buf).
Proof.
  intros Hk [Hpos Hrdy] Hbefore Hblock Hn.
  destruct (stops_polling_ready _ Hpos Hrdy) as [Hstop Hv].
  destruct (drdy_loop_stops 150 w k Hk) as (Hr & _ & _).
  { intros j Hj. destruct (Hbefore j Hj).
    apply keeps_polling_status; assumption. }
  { exact Hstop. }
  fold mma8491_drdy in Hr. rewrite Hv in Hr.
  destruct (drdy_loop_frame 150 w) as (_ & _ & Hd & Hb & _).
  fold mma8491_drdy in Hd, Hb.
  destruct Hd as (_ & Hresp & _).
  unfold result at 1. rewrite mma8491_read_run, Hr.
  change (0 <? 0) with false. cbv iota.
  unfold i2c_smbus_read_i2c_block_data.
  rewrite Hresp, Hb, Hblock.
  destruct (Z.ltb_spec n 0); [lia | reflexivity].
Qed.

(** C10, as the specification states it, fails.  The channel descriptor
    offers a calibration bias, but the driver registers no [write_raw]
    through which a caller could set one and [read_raw] answers a bias
    query with [-EINVAL]; the value reported for the Y word 0x0008 is its
    decoding, 2, whatever non-zero bias one may have wished to add. *)
Lemma calibbias_not_applied :
  let chan := MMA8491_CHANNEL IIO_MOD_Y 1 in
  chan_offers chan IIO_CHAN_INFO_CALIBBIAS = true /\
  write_raw mma8491_info = None /\
  mma8491_read_raw the_device chan IIO_CHAN_INFO_CALIBBIAS world_ready
    = (mk_raw_result (- EINVAL) None, world_ready) /\
  result (mma8491_read_raw the_device chan IIO_CHAN_INFO_RAW) world_ready
    = mk_raw_result IIO_VAL_INT (Some (sample_decode 0x0008)) /\
  ~ (exists bias, bias <> 0 /\
       rr_val (result (mma8491_read_raw the_device chan IIO_CHAN_INFO_RAW)
                 world_ready)
       = Some (sample_decode 0x0008 + bias)).
Proof.
  cbv zeta. repeat split.
  intros (bias & Hbias & H).
  change (rr_val (result (mma8491_read_raw the_device
                            (MMA8491_CHANNEL IIO_MOD_Y 1) IIO_CHAN_INFO_RAW)
                    world_ready))
    with (Some 2) in H.
  change (sample_decode 0x0008) with 2 in H.
  apply (f_equal (fun o => match o with Some v => v | None => 0 end)) in H.
  cbv beta iota in H. lia.
Qed.

(** C10, amended.  For each of the three axis channels, an on-demand read
    that finds the data ready within the 150 attempts and whose block read
    succeeds reports [IIO_VAL_INT] and, as the value, the decoding of the
    big-endian word the bus delivered for that axis, with nothing added:
    the result does not depend on the driver's data at all. *)
Theorem read_raw_reports_decoded_word (data : mma8491_data)
    (chan : iio_chan_spec) (w : world) (k : nat) (n : Z) (bytes : list Z)
    (Hoff : buffer_enabled w = false)
    (Hk : (k < 150)%nat)
    (Hready : 0 <= status_at w k /\ ready_bits (status_at w k) = true)
    (Hbefore : forall j, (j < k)%nat ->
                 0 <= status_at w j /\ ready_bits (status_at w j) = false)
    (Hblock : block_resp w (block_reads w) = (n, bytes))
    (Hn : 0 <= n)
    (Hlen : (6 <= List.length bytes)%nat)
    (Haxis : (scan_index chan < 3)%nat) :
  result (mma8491_read_raw data chan IIO_CHAN_INFO_RAW) w
  = mk_raw_result IIO_VAL_INT
      (Some (sample_decode
               (CInt.be16_to_cpu (nth (2 * scan_index chan) bytes 0)
                                 (nth (2 * scan_index chan + 1) bytes 0)))).
Proof.
  unfold result. rewrite (read_raw_run data chan w Hoff). cbv zeta.
  cbv [fst].
  rewrite (mma8491_read_ready _ (on_demand_entry data w) k n bytes
             Hk Hready Hbefore Hblock Hn).
  cbv [fst snd].
  destruct (Z.ltb_spec n 0); [lia|].
  change (3 * sizeof_be16) with 6.
  rewrite be16_at_store_block; [reflexivity | reflexivity | exact Hlen
                                | exact Haxis].
Qed.

Lemma read_raw_reports_decoded_word_witness :
  result (mma8491_read_raw the_device (MMA8491_CHANNEL IIO_MOD_Z 2)
            IIO_CHAN_INFO_RAW) world_ready_third
  = mk_raw_result IIO_VAL_INT
      (Some (sample_decode (CInt.be16_to_cpu 0x80 0x00))).
Proof.
  apply (read_raw_reports_decoded_word the_device
           (MMA8491_CHANNEL IIO_MOD_Z 2) world_ready_third 2 6
           [0x3F; 0xFC; 0x00; 0x04; 0x80; 0x00]).
  - reflexivity.
  - lia.
  - split; [unfold status_at; simpl; lia | reflexivity].
  - intros j Hj. destruct j as [|[|j]]; [| |lia];
      (split; [unfold status_at; simpl; lia | reflexivity]).
  - reflexivity.
  - lia.
  - simpl. lia.
  - simpl. lia.
Defined.

(** * Further properties of the driver *)

(** ** The ready poller, whatever the bus answers *)

(** Within [n] attempts, either every status keeps the loop polling or
    there is a first one that stops it. *)
Lemma polling_stops_or_not (w : world) (n : nat) :
  (forall j, (j < n)%nat -> keeps_polling (status_at w j) = true) \/
  (exists k, (k < n)%nat /\
             keeps_polling (status_at w k) = false /\
             forall j, (j < k)%nat -> keeps_polling (status_at w j) = true).
Proof.
  induction n as [|n [Hall | (k & Hk & Hstop & Hbefore)]].
  - left. intros j Hj. lia.
  - destruct (keeps_polling (status_at w n)) eqn:Hn.
    + left. intros j Hj.
      destruct (Nat.eq_dec j n) as [-> | Hne]; [exact Hn | apply Hall; lia].
    + right. exists n. repeat split; [lia | exact Hn | exact Hall].
  - right. exists k. repeat split; [lia | exact Hstop | exact Hbefore].
Qed.

Lemma sleep_total_app (l1 l2 : list event) :
  sleep_total (l1 ++ l2) = sleep_total l1 + sleep_total l2.
Proof.
  induction l1 as [|e l1 IH]; [reflexivity|].
  destruct e; simpl; rewrite IH; lia.
Qed.

Lemma poll_rounds_sleep_total (k : nat) :
  sleep_total (poll_rounds k) = 20 * Z.of_nat k.
Proof.
  induction k as [|k IH]; [reflexivity|].
  change (sleep_total (poll_rounds (S k)))
    with (20 + sleep_total (poll_rounds k)).
  rewrite IH. lia.
Qed.

(** The events of the poller are one of two shapes. *)
Lemma drdy_events_shape (w : world) :
  (result mma8491_drdy w = - EIO /\
   emitted mma8491_drdy w = poll_rounds 150 ++ [EvDevErr "data not ready"] /\
   byte_reads (after mma8491_drdy w) = (byte_reads w + 150)%nat /\
   forall j, (j < 150)%nat -> keeps_polling (status_at w j) = true)
  \/
  (exists k, (k < 150)%nat /\
     result mma8491_drdy w = drdy_verdict (status_at w k) /\
     emitted mma8491_drdy w = poll_rounds k ++ [EvReadByte MMA8491_STATUS] /\
     byte_reads (after mma8491_drdy w) = (byte_reads w + S k)%nat /\
     keeps_polling (status_at w k) = false /\
     forall j, (j < k)%nat -> keeps_polling (status_at w j) = true).
Proof.
  destruct (polling_stops_or_not w 150) as [Hall | (k & Hk & Hstop & Hbefore)].
  - left. destruct (drdy_loop_exhausts 150 w Hall) as (Hr & Ht & Hb).
    repeat split; try assumption.
    apply emitted_of_trace. exact Ht.
  - right. exists k.
    destruct (drdy_loop_stops 150 w k Hk Hbefore Hstop) as (Hr & Ht & Hb).
    repeat split; try assumption.
    apply emitted_of_trace. exact Ht.
Qed.

(** Evaluate the counts and delays of one-event lists. *)
Ltac eval_singletons :=
  repeat match goal with
  | |- context [count ?p [?e]] =>
      let v := eval compute in (count p [e]) in change (count p [e]) with v
  | |- context [sleep_total [?e]] =>
      let v := eval compute in (sleep_total [e]) in
      change (sleep_total [e]) with v
  end.

(** X1.  Whatever the bus answers, bytes or errors, a call of the poller
    makes at least one and at most 150 status reads, never more delays than
    reads, each of 20 ms, so that it sleeps 3000 ms at most; the bus has
    been read exactly as many times as the trace shows. *)
Theorem drdy_bounded (w : world) :
  let evs := emitted mma8491_drdy w in
  (1 <= count is_byte_read evs <= 150)%nat /\
  (count is_sleep evs <= count is_byte_read evs)%nat /\
  sleep_total evs = 20 * Z.of_nat (count is_sleep evs) /\
  sleep_total evs <= 3000 /\
  byte_reads (after mma8491_drdy w)
    = (byte_reads w + count is_byte_read evs)%nat.
Proof.
  cbv zeta.
  destruct (drdy_events_shape w)
    as [(_ & Hem & Hb & _) | (k & Hk & _ & Hem & Hb & _)];
    rewrite Hem, Hb, !count_app, sleep_total_app,
      poll_rounds_reads, poll_rounds_sleeps, poll_rounds_sleep_total;
    eval_singletons; repeat split; lia.
Qed.

(** X2.  The poller returns 0 exactly when, within the 150 attempts, a
    status read answers a byte with the three ready bits set while every
    earlier read answered a byte without them; it never returns a positive
    number. *)
Theorem drdy_ready_iff (w : world) :
  (result mma8491_drdy w = 0 <->
   exists k, (k < 150)%nat /\
     0 <= status_at w k /\ ready_bits (status_at w k) = true /\
     forall j, (j < k)%nat ->
       0 <= status_at w j /\ ready_bits (status_at w j) = false)
  /\ result mma8491_drdy w <= 0.
Proof.
  split; [split|].
  - intros H0.
    destruct (drdy_events_shape w)
      as [(Hr & _) | (k & Hk & Hr & _ & _ & Hstop & Hbefore)].
    + rewrite Hr in H0. discriminate.
    + exists k. split; [exact Hk|].
      rewrite Hr in H0. unfold drdy_verdict in H0.
      destruct (keeps_polling_false _ Hstop) as [Hneg | [Hpos Hrdy]].
      * rewrite Hneg in H0. apply Z.ltb_lt in Hneg. lia.
      * apply Z.ltb_ge in Hpos. rewrite drdy_set_ready_bits in Hrdy.
        repeat split; try assumption;
          destruct (keeps_polling_true _ (Hbefore j H)) as [Hp Hn].
        -- apply Z.ltb_ge in Hp. exact Hp.
        -- rewrite drdy_set_ready_bits in Hn. exact Hn.
  - intros (k & Hk & Hpos & Hrdy & Hbefore).
    destruct (stops_polling_ready _ Hpos Hrdy) as [Hstop Hv].
    destruct (drdy_loop_stops 150 w k Hk) as (Hr & _).
    + intros j Hj. destruct (Hbefore j Hj).
      apply keeps_polling_status; assumption.
    + exact Hstop.
    + unfold mma8491_drdy. rewrite Hr. exact Hv.
  - destruct (drdy_loop_frame 150 w) as (Hle & _). exact Hle.
Qed.

(** X3.  Whether a status ends the polling with success depends on its
    three low bits only: it does when the status is 7 modulo 8, whatever
    the other bits are. *)
Theorem drdy_set_low_bits (status high : Z) :
  drdy_set status = (status mod 8 =? 7) /\
  drdy_set (status + 8 * high) = drdy_set status.
Proof.
  assert (H : forall s, drdy_set s = (s mod 8 =? 7)).
  { intros s. unfold drdy_set.
    change MMA8491_STATUS_DRDY with (Z.ones 3).
    rewrite Z.land_ones by lia. reflexivity. }
  split; [apply H|].
  rewrite !H. f_equal.
  rewrite Z.mul_comm, Z.mod_add by lia. reflexivity.
Qed.

(** ** Acquisitions, whatever the bus answers *)

Lemma filter_all (p : event -> bool) (evs : list event) :
  forallb p evs = true -> filter p evs = evs.
Proof.
  induction evs as [|e evs IH]; simpl; [reflexivity|].
  intros H. apply andb_prop in H. destruct H as [He Hevs].
  rewrite He, (IH Hevs). reflexivity.
Qed.

Lemma poll_rounds_are_poll_events (k : nat) :
  forallb is_poll_event (poll_rounds k) = true.
Proof. induction k as [|k IH]; [reflexivity | exact IH]. Qed.

(** The events of an acquisition: those of the poller, then the block
    read unless the poller failed. *)
Lemma mma8491_read_events (buf : list Z) (w : world) :
  emitted (mma8491_read buf) w
    = emitted mma8491_drdy w
      ++ (if result mma8491_drdy w <? 0 then []
          else [EvReadBlock MMA8491_OUT_X 6]) /\
  block_reads (after (mma8491_read buf) w)
    = (block_reads w
       + (if (result mma8491_drdy w <? 0)%Z then 0 else 1))%nat /\
  byte_reads (after (mma8491_read buf) w)
    = byte_reads (after mma8491_drdy w).
Proof.
  destruct (drdy_loop_frame 150 w) as (_ & (evs & Ht & _) & _ & Hb & _).
  fold mma8491_drdy in Ht, Hb.
  pose proof (mma8491_read_run buf w) as Hrun.
  destruct (result mma8491_drdy w <? 0).
  - assert (Haft : after (mma8491_read buf) w = after mma8491_drdy w)
      by (unfold after at 1; rewrite Hrun; reflexivity).
    unfold emitted. rewrite Haft, Hb, app_nil_r, Nat.add_0_r.
    repeat split.
  - destruct (block_read_run MMA8491_OUT_X (3 * sizeof_be16) buf
                (after mma8491_drdy w)) as [_ Hw].
    assert (Haft : after (mma8491_read buf) w
                   = record_event (EvReadBlock MMA8491_OUT_X 6)
                       (next_block_read (after mma8491_drdy w)))
      by (unfold after at 1; rewrite Hrun; exact Hw).
    rewrite Haft. split.
    + rewrite (emitted_of_trace _ _ _ Ht).
      unfold emitted. rewrite Haft. simpl. rewrite Ht, <- app_assoc.
      apply skipn_length_app.
    + simpl. rewrite Hb. split; [lia | reflexivity].
Qed.

(** The poller sees the world only through the answers of the bus. *)
Lemma drdy_congr (w w' : world) :
  (forall k, status_at w k = status_at w' k) ->
  result mma8491_drdy w = result mma8491_drdy w' /\
  emitted mma8491_drdy w = emitted mma8491_drdy w'.
Proof.
  intros Hsame.
  destruct (drdy_events_shape w)
    as [(Hr & Hem & _ & Hall) | (k & Hk & Hr & Hem & _ & Hstop & Hbefore)].
  - destruct (drdy_loop_exhausts 150 w') as (Hr' & Ht' & _).
    { intros j Hj. rewrite <- Hsame. apply Hall. exact Hj. }
    fold mma8491_drdy in Hr', Ht'.
    rewrite Hr, Hem, Hr', (emitted_of_trace _ _ _ Ht'). split; reflexivity.
  - destruct (drdy_loop_stops 150 w' k Hk) as (Hr' & Ht' & _).
    { intros j Hj. rewrite <- Hsame. apply Hbefore. exact Hj. }
    { rewrite <- Hsame. exact Hstop. }
    fold mma8491_drdy in Hr', Ht'.
    rewrite Hr, Hem, Hr', (emitted_of_trace _ _ _ Ht'), Hsame.
    split; reflexivity.
Qed.

Lemma mma8491_read_congr (buf buf' : list Z) (w w' : world) :
  (forall k, status_at w k = status_at w' k) ->
  emitted (mma8491_read buf) w = emitted (mma8491_read buf') w'.
Proof.
  intros Hsame.
  destruct (mma8491_read_events buf w) as (He & _).
  destruct (mma8491_read_events buf' w') as (He' & _).
  destruct (drdy_congr w w' Hsame) as (Hr & Hem).
  rewrite He, He', Hr, Hem. reflexivity.
Qed.

Lemma status_at_on_demand_entry (data : mma8491_data) (w : world) (k : nat) :
  status_at (on_demand_entry data w) k = status_at w k.
Proof. reflexivity. Qed.

(** X4.  Started in the same world, an on-demand read and the trigger
    handler make the same status reads, delays, log line and block read, in
    the same order: the two paths differ only in what surrounds the
    acquisition. *)
Theorem both_paths_same_acquisition (data : mma8491_data)
    (chan : iio_chan_spec) (w : world)
    (Hoff : buffer_enabled w = false) :
  filter is_read_event
    (emitted (mma8491_read_raw data chan IIO_CHAN_INFO_RAW) w)
  = filter is_read_event (emitted mma8491_trigger_handler w).
Proof.
  destruct (read_raw_events data chan w Hoff) as (evs & Hem & Hevs & Hdef).
  destruct (trigger_handler_events w) as (_ & Hem' & Hevs').
  cbv zeta in Hem', Hevs'.
  rewrite Hem, Hem'.
  change (EvGpioSet (rst_gpio data) 1 :: EvMutexLock
            :: evs ++ [EvMutexUnlock; EvGpioSet (rst_gpio data) 0])
    with ([EvGpioSet (rst_gpio data) 1; EvMutexLock]
            ++ evs ++ [EvMutexUnlock; EvGpioSet (rst_gpio data) 0]).
  rewrite !filter_app, (filter_all _ _ Hevs), (filter_all _ _ Hevs').
  rewrite Hdef.
  rewrite (mma8491_read_congr (result (stack_array 6) w)
             (result (stack_array 16) w) (on_demand_entry data w) w
             (status_at_on_demand_entry data w)).
  simpl. rewrite app_nil_r.
  destruct (fst (result (mma8491_read (result (stack_array 16) w)) w) <? 0);
    simpl; rewrite app_nil_r; reflexivity.
Qed.

Lemma both_paths_same_acquisition_witness :
  filter is_read_event
    (emitted (mma8491_read_raw the_device (MMA8491_CHANNEL IIO_MOD_X 0)
                IIO_CHAN_INFO_RAW) world_ready_third)
  = filter is_read_event (emitted mma8491_trigger_handler world_ready_third).
Proof.
  apply (both_paths_same_acquisition the_device
           (MMA8491_CHANNEL IIO_MOD_X 0) world_ready_third).
  reflexivity.
Defined.

(** The three ways an acquisition can go, read off the answers of the
    bus. *)
Lemma acquisition_times_out (buf : list Z) (w : world) :
  (forall j, (j < 150)%nat ->
     0 <= status_at w j /\ ready_bits (status_at w j) = false) ->
  result (mma8491_read buf) w = (- EIO, buf) /\
  emitted (mma8491_read buf) w
    = poll_rounds 150 ++ [EvDevErr "data not ready"].
Proof.
  intros Hnever.
  destruct (drdy_loop_exhausts 150 w) as (Hr & Ht & _).
  { intros j Hj. destruct (Hnever j Hj).
    apply keeps_polling_status; assumption. }
  fold mma8491_drdy in Hr, Ht.
  destruct (mma8491_read_events buf w) as (Hem & _).
  rewrite Hem, (emitted_of_trace _ _ _ Ht), Hr.
  unfold result at 1. rewrite mma8491_read_run, Hr.
  split; [reflexivity | apply app_nil_r].
Qed.

Lemma acquisition_poll_error (buf : list Z) (w : world) (k : nat) :
  (k < 150)%nat ->
  status_at w k < 0 ->
  (forall j, (j < k)%nat ->
     0 <= status_at w j /\ ready_bits (status_at w j) = false) ->
  result (mma8491_read buf) w = (status_at w k, buf) /\
  emitted (mma8491_read buf) w
    = poll_rounds k ++ [EvReadByte MMA8491_STATUS].
Proof.
  intros Hk Herr Hbefore.
  destruct (stops_polling_error _ Herr) as [Hstop Hv].
  destruct (drdy_loop_stops 150 w k Hk) as (Hr & Ht & _).
  { intros j Hj. destruct (Hbefore j Hj).
    apply keeps_polling_status; assumption. }
  { exact Hstop. }
  fold mma8491_drdy in Hr, Ht. rewrite Hv in Hr.
  destruct (mma8491_read_events buf w) as (Hem & _).
  assert (Hneg : (status_at w k <? 0) = true) by (apply Z.ltb_lt; exact Herr).
  rewrite Hem, (emitted_of_trace _ _ _ Ht), Hr, Hneg.
  unfold result at 1. rewrite mma8491_read_run, Hr, Hneg.
  split; [reflexivity | apply app_nil_r].
Qed.

Lemma acquisition_ready (buf : list Z) (w : world) (k : nat) (n : Z)
    (bytes : list Z) :
  (k < 150)%nat ->
  0 <= status_at w k /\ ready_bits (status_at w k) = true ->
  (forall j, (j < k)%nat ->
     0 <= status_at w j /\ ready_bits (status_at w j) = false) ->
  block_resp w (block_reads w) = (n, bytes) ->
  result (mma8491_read buf) w
    = (n, if n <? 0 then buf else store_block 6 bytes buf) /\
  emitted (mma8491_read buf) w
    = poll_rounds k ++ [EvReadByte MMA8491_STATUS; EvReadBlock MMA8491_OUT_X 6].
Proof.
  intros Hk [Hpos Hrdy] Hbefore Hblock.
  destruct (stops_polling_ready _ Hpos Hrdy) as [Hstop Hv].
  destruct (drdy_loop_stops 150 w k Hk) as (Hr & Ht & _).
  { intros j Hj. destruct (Hbefore j Hj).
    apply keeps_polling_status; assumption. }
  { exact Hstop. }
  fold mma8491_drdy in Hr, Ht. rewrite Hv in Hr.
  destruct (drdy_loop_frame 150 w) as (_ & _ & Hd & Hb & _).
  fold mma8491_drdy in Hd, Hb.
  destruct Hd as (_ & Hresp & _).
  destruct (mma8491_read_events buf w) as (Hem & _).
  rewrite Hem, (emitted_of_trace _ _ _ Ht), Hr.
  change (0 <? 0) with false. cbv iota.
  split; [|rewrite <- app_assoc; reflexivity].
  unfold result at 1. rewrite mma8491_read_run, Hr.
  change (0 <? 0) with false. cbv iota.
  unfold i2c_smbus_read_i2c_block_data.
  rewrite Hresp, Hb, Hblock. reflexivity.
Qed.

(** An on-demand read outside streaming mode, in terms of its
    acquisition. *)
Lemma read_raw_via_acquisition (data : mma8491_data) (chan : iio_chan_spec)
    (w : world) :
  buffer_enabled w = false ->
  let buf0 := result (stack_array 6) w in
  let w0 := on_demand_entry data w in
  let rb := result (mma8491_read buf0) w0 in
  result (mma8491_read_raw data chan IIO_CHAN_INFO_RAW) w
    = (if fst rb <? 0 then mk_raw_result (fst rb) None
       else mk_raw_result IIO_VAL_INT
              (Some (sample_decode (be16_at (snd rb) (scan_index chan))))) /\
  emitted (mma8491_read_raw data chan IIO_CHAN_INFO_RAW) w
    = [EvGpioSet (rst_gpio data) 1; EvMutexLock]
      ++ emitted (mma8491_read buf0) w0
      ++ [EvMutexUnlock; EvGpioSet (rst_gpio data) 0].
Proof.
  intros Hoff. cbv zeta. split.
  - unfold result at 1. rewrite (read_raw_run data chan w Hoff).
    reflexivity.
  - destruct (read_raw_events data chan w Hoff) as (evs & Hem & _ & Hdef).
    rewrite Hem, Hdef. reflexivity.
Qed.

(** Every query other than the raw one ends in the default of the
    switch. *)
Lemma read_raw_other_queries (data : mma8491_data) (chan : iio_chan_spec)
    (mask : iio_chan_info_enum) (w : world)
    (Hmask : mask <> IIO_CHAN_INFO_RAW) :
  mma8491_read_raw data chan mask w = (mk_raw_result (- EINVAL) None, w).
Proof. destruct mask; try reflexivity. congruence. Qed.

(** X5.  Of the queries the channel table offers, only the raw one is
    served.  Each of the three axis channels offers four queries: raw
    value, calibration bias, sampling frequency and scale; the timestamp
    channel offers none.  On every channel of the table, every offered
    query other than the raw one is a calibration bias, sampling frequency
    or scale query on an axis channel, and [read_raw] refuses it with
    [-EINVAL], storing nothing and leaving the world as it was. *)
Theorem advertised_queries_refused (chan : iio_chan_spec)
    (Hchan : In chan mma8491_channels) :
  (forall mask,
     chan_offers chan mask = true <->
     type chan = IIO_ACCEL /\
     (mask = IIO_CHAN_INFO_RAW \/ mask = IIO_CHAN_INFO_CALIBBIAS \/
      mask = IIO_CHAN_INFO_SAMP_FREQ \/ mask = IIO_CHAN_INFO_SCALE)) /\
  (forall mask,
     chan_offers chan mask = true ->
     mask <> IIO_CHAN_INFO_RAW ->
     forall data w,
       mma8491_read_raw data chan mask w
         = (mk_raw_result (- EINVAL) None, w)).
Proof.
  split.
  - intros mask.
    destruct Hchan as [<- | [<- | [<- | [<- | []]]]];
      destruct mask; cbn;
      (split;
       [ intros H; first [discriminate H | split; [reflexivity | auto 6]]
       | intros [Ht Hm];
         first [ reflexivity
               | discriminate Ht
               | destruct Hm as [Hm | [Hm | [Hm | Hm]]]; discriminate Hm ] ]).
  - intros mask _ Hmask data w.
    apply read_raw_other_queries. exact Hmask.
Qed.

Lemma advertised_queries_refused_witness :
  (forall mask,
     chan_offers (MMA8491_CHANNEL IIO_MOD_Y 1) mask = true <->
     type (MMA8491_CHANNEL IIO_MOD_Y 1) = IIO_ACCEL /\
     (mask = IIO_CHAN_INFO_RAW \/ mask = IIO_CHAN_INFO_CALIBBIAS \/
      mask = IIO_CHAN_INFO_SAMP_FREQ \/ mask = IIO_CHAN_INFO_SCALE)) /\
  (forall mask,
     chan_offers (MMA8491_CHANNEL IIO_MOD_Y 1) mask = true ->
     mask <> IIO_CHAN_INFO_RAW ->
     forall data w,
       mma8491_read_raw data (MMA8491_CHANNEL IIO_MOD_Y 1) mask w
         = (mk_raw_result (- EINVAL) None, w)).
Proof.
  apply (advertised_queries_refused (MMA8491_CHANNEL IIO_MOD_Y 1)).
  simpl. right. left. reflexivity.
Defined.

(** X6.  Outside streaming mode a raw query leaves the mutex released and
    the enable line low however the acquisition went, touches no other
    line and leaves streaming mode off; it stores a value exactly when it
    does not return an error, and then returns [IIO_VAL_INT]. *)
Theorem read_raw_restores (data : mma8491_data) (chan : iio_chan_spec)
    (w : world) (Hoff : buffer_enabled w = false) :
  let r := result (mma8491_read_raw data chan IIO_CHAN_INFO_RAW) w in
  let w' := after (mma8491_read_raw data chan IIO_CHAN_INFO_RAW) w in
  lock_held w' = false /\
  gpio_level w' (rst_gpio data) = 0 /\
  (forall g, g <> rst_gpio data -> gpio_level w' g = gpio_level w g) /\
  buffer_enabled w' = false /\
  (rr_val r = None <-> rr_ret r < 0) /\
  (rr_ret r < 0 \/ rr_ret r = IIO_VAL_INT).
Proof.
  cbv zeta.
  pose proof (read_raw_run data chan w Hoff) as Hrun. cbv zeta in Hrun.
  set (buf0 := result (stack_array 6) w) in *.
  destruct (mma8491_read_frame buf0 (on_demand_entry data w))
    as (_ & Hd & Hg & _).
  destruct Hd as (_ & _ & _ & _ & Hen).
  set (w1 := after (mma8491_read buf0) (on_demand_entry data w)) in *.
  set (rb := result (mma8491_read buf0) (on_demand_entry data w)) in *.
  assert (Hres : result (mma8491_read_raw data chan IIO_CHAN_INFO_RAW) w
                 = fst (mma8491_read_raw data chan IIO_CHAN_INFO_RAW w))
    by reflexivity.
  assert (Haft : after (mma8491_read_raw data chan IIO_CHAN_INFO_RAW) w
                 = on_demand_exit data w1)
    by (unfold after at 1; rewrite Hrun; reflexivity).
  rewrite Hres, Haft, Hrun. cbn [fst]. clear Hres Haft Hrun.
  split; [reflexivity|].
  split.
  { change (gpio_level (on_demand_exit data w1) (rst_gpio data))
      with (if rst_gpio data =? rst_gpio data then 0
            else gpio_level w1 (rst_gpio data)).
    rewrite Z.eqb_refl. reflexivity. }
  split.
  { intros g Hne.
    change (gpio_level (on_demand_exit data w1) g)
      with (if g =? rst_gpio data then 0 else gpio_level w1 g).
    rewrite Hg.
    change (gpio_level (on_demand_entry data w) g)
      with (if g =? rst_gpio data then 1 else gpio_level w g).
    destruct (Z.eqb_spec g (rst_gpio data)); [contradiction | reflexivity]. }
  split.
  { change (buffer_enabled (on_demand_exit data w1))
      with (buffer_enabled w1).
    rewrite Hen. exact Hoff. }
  destruct (fst rb <? 0) eqn:E; cbv [rr_ret rr_val].
  - apply Z.ltb_lt in E.
    split; [split; [intros _; exact E | reflexivity] | left; exact E].
  - unfold IIO_VAL_INT.
    split; [split; [discriminate | lia] | right; reflexivity].
Qed.

Lemma read_raw_restores_witness :
  let r := result (mma8491_read_raw the_device (MMA8491_CHANNEL IIO_MOD_X 0)
                     IIO_CHAN_INFO_RAW) world_burst_error_idle in
  let w' := after (mma8491_read_raw the_device (MMA8491_CHANNEL IIO_MOD_X 0)
                     IIO_CHAN_INFO_RAW) world_burst_error_idle in
  lock_held w' = false /\
  gpio_level w' 17 = 0 /\
  (forall g, g <> 17 -> gpio_level w' g = gpio_level world_burst_error_idle g) /\
  buffer_enabled w' = false /\
  (rr_val r = None <-> rr_ret r < 0) /\
  (rr_ret r < 0 \/ rr_ret r = IIO_VAL_INT).
Proof.
  apply (read_raw_restores the_device (MMA8491_CHANNEL IIO_MOD_X 0)
           world_burst_error_idle).
  reflexivity.
Defined.

(** X7.  An on-demand read of one of the three axis channels that finds
    the data ready at attempt [k] and
    whose block read does not fail drives the line high, takes the mutex,
    makes [k + 1] status reads with [k] delays between them, one block
    read, releases the mutex and drives the line low; it returns
    [IIO_VAL_INT] whatever non-negative count the block read returned, and
    the value is decoded from the buffer as the block read left it. *)
Theorem read_raw_success_sequence (data : mma8491_data)
    (chan : iio_chan_spec) (w : world) (k : nat) (n : Z) (bytes : list Z)
    (Hoff : buffer_enabled w = false)
    (Hk : (k < 150)%nat)
    (Hready : 0 <= status_at w k /\ ready_bits (status_at w k) = true)
    (Hbefore : forall j, (j < k)%nat ->
                 0 <= status_at w j /\ ready_bits (status_at w j) = false)
    (Hblock : block_resp w (block_reads w) = (n, bytes))
    (Hn : 0 <= n)
    (Haxis : (scan_index chan < 3)%nat) :
  emitted (mma8491_read_raw data chan IIO_CHAN_INFO_RAW) w
    = [EvGpioSet (rst_gpio data) 1; EvMutexLock]
      ++ poll_rounds k
      ++ [EvReadByte MMA8491_STATUS; EvReadBlock MMA8491_OUT_X 6;
          EvMutexUnlock; EvGpioSet (rst_gpio data) 0] /\
  result (mma8491_read_raw data chan IIO_CHAN_INFO_RAW) w
    = mk_raw_result IIO_VAL_INT
        (Some (sample_decode
                 (be16_at (store_block 6 bytes (stale_bytes w 0 6))
                          (scan_index chan)))).
Proof.
  clear Haxis.
  destruct (read_raw_via_acquisition data chan w Hoff) as (Hres & Hem).
  cbv zeta in Hres, Hem.
  destruct (acquisition_ready (result (stack_array 6) w)
              (on_demand_entry data w) k n bytes Hk Hready Hbefore Hblock)
    as (Hrb & Hevs).
  rewrite Hem, Hevs, Hres, Hrb. cbn [fst snd].
  destruct (Z.ltb_spec n 0); [lia|].
  split; [rewrite <- !app_assoc; reflexivity | reflexivity].
Qed.

Lemma read_raw_success_sequence_witness :
  emitted (mma8491_read_raw the_device (MMA8491_CHANNEL IIO_MOD_X 0)
             IIO_CHAN_INFO_RAW) world_short_read
    = [EvGpioSet 17 1; EvMutexLock; EvReadByte 0; EvReadBlock 1 6;
       EvMutexUnlock; EvGpioSet 17 0] /\
  result (mma8491_read_raw the_device (MMA8491_CHANNEL IIO_MOD_X 0)
            IIO_CHAN_INFO_RAW) world_short_read
    = mk_raw_result IIO_VAL_INT (Some (sample_decode 0x1234)).
Proof.
  apply (read_raw_success_sequence the_device (MMA8491_CHANNEL IIO_MOD_X 0)
           world_short_read 0 2 [0x12; 0x34]).
  - reflexivity.
  - lia.
  - split; [unfold status_at; simpl; lia | reflexivity].
  - intros j Hj. lia.
  - reflexivity.
  - lia.
  - simpl. lia.
Defined.

(** X8.  An on-demand read during which the 150 status reads all answer
    a byte without the three ready bits returns [-EIO] and stores nothing;
    it has driven the line high, taken the mutex, made the 150 reads and
    delays, logged, released the mutex and driven the line low, and has
    made no block read. *)
Theorem read_raw_timeout (data : mma8491_data) (chan : iio_chan_spec)
    (w : world)
    (Hoff : buffer_enabled w = false)
    (Hnever : forall j, (j < 150)%nat ->
                0 <= status_at w j /\ ready_bits (status_at w j) = false) :
  result (mma8491_read_raw data chan IIO_CHAN_INFO_RAW) w
    = mk_raw_result (- EIO) None /\
  emitted (mma8491_read_raw data chan IIO_CHAN_INFO_RAW) w
    = [EvGpioSet (rst_gpio data) 1; EvMutexLock]
      ++ poll_rounds 150
      ++ [EvDevErr "data not ready"; EvMutexUnlock;
          EvGpioSet (rst_gpio data) 0] /\
  count is_block_read
    (emitted (mma8491_read_raw data chan IIO_CHAN_INFO_RAW) w) = 0%nat.
Proof.
  destruct (read_raw_via_acquisition data chan w Hoff) as (Hres & Hem).
  cbv zeta in Hres, Hem.
  destruct (acquisition_times_out (result (stack_array 6) w)
              (on_demand_entry data w) Hnever) as (Hrb & Hevs).
  rewrite Hem, Hevs, Hres, Hrb. cbn [fst snd].
  split; [reflexivity|].
  split; [rewrite <- !app_assoc; reflexivity|].
  rewrite !count_app.
  rewrite (count_none is_block_read is_poll_event (poll_rounds 150)).
  - reflexivity.
  - intros [] He; simpl in *; try discriminate; reflexivity.
  - apply poll_rounds_are_poll_events.
Qed.

Lemma read_raw_timeout_witness :
  result (mma8491_read_raw the_device (MMA8491_CHANNEL IIO_MOD_X 0)
            IIO_CHAN_INFO_RAW) world_never_ready_idle
    = mk_raw_result (- EIO) None /\
  emitted (mma8491_read_raw the_device (MMA8491_CHANNEL IIO_MOD_X 0)
             IIO_CHAN_INFO_RAW) world_never_ready_idle
    = [EvGpioSet 17 1; EvMutexLock]
      ++ poll_rounds 150
      ++ [EvDevErr "data not ready"; EvMutexUnlock; EvGpioSet 17 0] /\
  count is_block_read
    (emitted (mma8491_read_raw the_device (MMA8491_CHANNEL IIO_MOD_X 0)
                IIO_CHAN_INFO_RAW) world_never_ready_idle) = 0%nat.
Proof.
  apply (read_raw_timeout the_device (MMA8491_CHANNEL IIO_MOD_X 0)
           world_never_ready_idle).
  - reflexivity.
  - intros j _. split; [unfold status_at; simpl; lia | reflexivity].
Defined.

(** X9.  An on-demand read whose status read of attempt [k] fails returns
    the error of the bus as it is and stores nothing; the failed read is
    followed at once by the release of the mutex and the lowering of the
    line, and no block read is made. *)
Theorem read_raw_poll_error (data : mma8491_data) (chan : iio_chan_spec)
    (w : world) (k : nat)
    (Hoff : buffer_enabled w = false)
    (Hk : (k < 150)%nat)
    (Herr : status_at w k < 0)
    (Hbefore : forall j, (j < k)%nat ->
                 0 <= status_at w j /\ ready_bits (status_at w j) = false) :
  result (mma8491_read_raw data chan IIO_CHAN_INFO_RAW) w
    = mk_raw_result (status_at w k) None /\
  emitted (mma8491_read_raw data chan IIO_CHAN_INFO_RAW) w
    = [EvGpioSet (rst_gpio data) 1; EvMutexLock]
      ++ poll_rounds k
      ++ [EvReadByte MMA8491_STATUS; EvMutexUnlock;
          EvGpioSet (rst_gpio data) 0].
Proof.
  destruct (read_raw_via_acquisition data chan w Hoff) as (Hres & Hem).
  cbv zeta in Hres, Hem.
  destruct (acquisition_poll_error (result (stack_array 6) w)
              (on_demand_entry data w) k Hk Herr Hbefore) as (Hrb & Hevs).
  rewrite Hem, Hevs, Hres, Hrb. cbn [fst snd].
  rewrite status_at_on_demand_entry.
  destruct (Z.ltb_spec (status_at w k) 0); [|lia].
  split; [reflexivity | rewrite <- !app_assoc; reflexivity].
Qed.

Lemma read_raw_poll_error_witness :
  result (mma8491_read_raw the_device (MMA8491_CHANNEL IIO_MOD_X 0)
            IIO_CHAN_INFO_RAW) world_poll_error_idle
    = mk_raw_result (-6) None /\
  emitted (mma8491_read_raw the_device (MMA8491_CHANNEL IIO_MOD_X 0)
             IIO_CHAN_INFO_RAW) world_poll_error_idle
    = [EvGpioSet 17 1; EvMutexLock; EvReadByte 0; EvSleep 20; EvReadByte 0;
       EvMutexUnlock; EvGpioSet 17 0].
Proof.
  apply (read_raw_poll_error the_device (MMA8491_CHANNEL IIO_MOD_X 0)
           world_poll_error_idle 1).
  - reflexivity.
  - lia.
  - unfold status_at. simpl. lia.
  - intros j Hj. destruct j as [|j]; [|lia].
    split; [unfold status_at; simpl; lia | reflexivity].
Defined.

(** X10.  An on-demand read that finds the data ready but whose block read
    fails returns the error of the block read as it is and stores nothing;
    the mutex is released and the line lowered right after the failed
    block read. *)
Theorem read_raw_burst_error (data : mma8491_data) (chan : iio_chan_spec)
    (w : world) (k : nat) (n : Z) (bytes : list Z)
    (Hoff : buffer_enabled w = false)
    (Hk : (k < 150)%nat)
    (Hready : 0 <= status_at w k /\ ready_bits (status_at w k) = true)
    (Hbefore : forall j, (j < k)%nat ->
                 0 <= status_at w j /\ ready_bits (status_at w j) = false)
    (Hblock : block_resp w (block_reads w) = (n, bytes))
    (Hn : n < 0) :
  result (mma8491_read_raw data chan IIO_CHAN_INFO_RAW) w
    = mk_raw_result n None /\
  emitted (mma8491_read_raw data chan IIO_CHAN_INFO_RAW) w
    = [EvGpioSet (rst_gpio data) 1; EvMutexLock]
      ++ poll_rounds k
      ++ [EvReadByte MMA8491_STATUS; EvReadBlock MMA8491_OUT_X 6;
          EvMutexUnlock; EvGpioSet (rst_gpio data) 0].
Proof.
  destruct (read_raw_via_acquisition data chan w Hoff) as (Hres & Hem).
  cbv zeta in Hres, Hem.
  destruct (acquisition_ready (result (stack_array 6) w)
              (on_demand_entry data w) k n bytes Hk Hready Hbefore Hblock)
    as (Hrb & Hevs).
  rewrite Hem, Hevs, Hres, Hrb. cbn [fst snd].
  destruct (Z.ltb_spec n 0); [|lia].
  split; [reflexivity | rewrite <- !app_assoc; reflexivity].
Qed.

Lemma read_raw_burst_error_witness :
  result (mma8491_read_raw the_device (MMA8491_CHANNEL IIO_MOD_X 0)
            IIO_CHAN_INFO_RAW) world_burst_error_idle
    = mk_raw_result (-6) None /\
  emitted (mma8491_read_raw the_device (MMA8491_CHANNEL IIO_MOD_X 0)
             IIO_CHAN_INFO_RAW) world_burst_error_idle
    = [EvGpioSet 17 1; EvMutexLock; EvReadByte 0; EvReadBlock 1 6;
       EvMutexUnlock; EvGpioSet 17 0].
Proof.
  apply (read_raw_burst_error the_device (MMA8491_CHANNEL IIO_MOD_X 0)
           world_burst_error_idle 0 (-6) []).
  - reflexivity.
  - lia.
  - split; [unfold status_at; simpl; lia | reflexivity].
  - intros j Hj. lia.
  - reflexivity.
  - lia.
Defined.

(** ** What becomes of the buffer *)

(** The buffer after a block read of six bytes into a fresh automatic
    array of [size] bytes: what the bus delivered, six bytes at most, then
    the bytes of the array that were not overwritten. *)
Lemma store_block_stale (w : world) (bytes : list Z) (size : nat) :
  (6 <= size)%nat ->
  let m := Nat.min 6 (List.length bytes) in
  store_block 6 bytes (stale_bytes w 0 size)
    = firstn 6 bytes ++ stale_bytes w m (size - m) /\
  List.length (store_block 6 bytes (stale_bytes w 0 size)) = size.
Proof.
  intros Hsize. cbv zeta. unfold store_block, stale_bytes.
  rewrite length_map, length_seq.
  change (Z.to_nat 6) with 6%nat.
  replace (Nat.min 6 size) with 6%nat by lia.
  rewrite length_firstn, skipn_map, skipn_seq.
  split; [reflexivity|].
  rewrite length_app, length_firstn, length_map, length_seq.
  lia.
Qed.

(** X11.  An on-demand read does not compare the count the block read
    returns with the six bytes it asked for.  When the data is ready and
    the block read delivers fewer bytes than reach the axis queried, the
    read still returns [IIO_VAL_INT], and the value is decoded from the two
    bytes the automatic buffer happened to hold. *)
Theorem read_raw_short_read (data : mma8491_data) (chan : iio_chan_spec)
    (w : world) (k : nat) (n : Z) (bytes : list Z)
    (Hoff : buffer_enabled w = false)
    (Hk : (k < 150)%nat)
    (Hready : 0 <= status_at w k /\ ready_bits (status_at w k) = true)
    (Hbefore : forall j, (j < k)%nat ->
                 0 <= status_at w j /\ ready_bits (status_at w j) = false)
    (Hblock : block_resp w (block_reads w) = (n, bytes))
    (Hn : n = Z.of_nat (List.length bytes))
    (Haxis : (scan_index chan < 3)%nat)
    (Hshort : (List.length bytes <= 2 * scan_index chan)%nat) :
  result (mma8491_read_raw data chan IIO_CHAN_INFO_RAW) w
    = mk_raw_result IIO_VAL_INT
        (Some (sample_decode
                 (CInt.be16_to_cpu (stack_byte w (2 * scan_index chan))
                                   (stack_byte w (2 * scan_index chan + 1))))).
Proof.
  destruct (read_raw_via_acquisition data chan w Hoff) as (Hres & _).
  cbv zeta in Hres.
  destruct (acquisition_ready (result (stack_array 6) w)
              (on_demand_entry data w) k n bytes Hk Hready Hbefore Hblock)
    as (Hrb & _).
  rewrite Hres, Hrb. cbn [fst snd].
  destruct (Z.ltb_spec n 0); [lia|].
  do 3 f_equal.
  destruct (scan_index chan) as [|[|[|i]]]; [| | |lia];
    destruct bytes as [|b0 [|b1 [|b2 [|b3 [|b4 bytes]]]]];
    simpl in Hshort; try lia; reflexivity.
Qed.

Lemma read_raw_short_read_witness :
  result (mma8491_read_raw the_device (MMA8491_CHANNEL IIO_MOD_Z 2)
            IIO_CHAN_INFO_RAW) world_short_read
    = mk_raw_result IIO_VAL_INT
        (Some (sample_decode (CInt.be16_to_cpu 0xA4 0xA5))).
Proof.
  apply (read_raw_short_read the_device (MMA8491_CHANNEL IIO_MOD_Z 2)
           world_short_read 0 2 [0x12; 0x34]).
  - reflexivity.
  - lia.
  - split; [unfold status_at; simpl; lia | reflexivity].
  - intros j Hj. lia.
  - reflexivity.
  - reflexivity.
  - simpl. lia.
  - simpl. lia.
Defined.

(** X12.  When the data is ready at attempt [k] and the block read does
    not fail, the trigger handler pushes one record of 16 bytes stamped
    with the current time: the bytes the bus delivered, six at most,
    followed by bytes of its automatic buffer that it never wrote, ten at
    least.  It does so whatever count the block read returned. *)
Theorem trigger_pushes_unwritten_bytes (w : world) (k : nat) (n : Z)
    (bytes : list Z)
    (Hk : (k < 150)%nat)
    (Hready : 0 <= status_at w k /\ ready_bits (status_at w k) = true)
    (Hbefore : forall j, (j < k)%nat ->
                 0 <= status_at w j /\ ready_bits (status_at w j) = false)
    (Hblock : block_resp w (block_reads w) = (n, bytes))
    (Hn : 0 <= n) :
  let m := Nat.min 6 (List.length bytes) in
  let record := firstn 6 bytes ++ stale_bytes w m (16 - m) in
  emitted mma8491_trigger_handler w
    = poll_rounds k
      ++ [EvReadByte MMA8491_STATUS; EvReadBlock MMA8491_OUT_X 6;
          EvPush record (time_ns w); EvNotifyDone] /\
  List.length record = 16%nat /\
  skipn 6 record = stale_bytes w 6 10.
Proof.
  cbv zeta.
  destruct (trigger_handler_events w) as (_ & Hem & _). cbv zeta in Hem.
  destruct (acquisition_ready (result (stack_array 16) w) w k n bytes
              Hk Hready Hbefore Hblock) as (Hrb & Hevs).
  destruct (store_block_stale w bytes 16) as (Hstore & Hlen); [lia|].
  cbv zeta in Hstore.
  rewrite Hem, Hevs, Hrb. cbn [fst snd].
  destruct (Z.ltb_spec n 0); [lia|].
  change (result (stack_array 16) w) with (stale_bytes w 0 16).
  rewrite Hstore. rewrite Hstore in Hlen.
  split; [rewrite <- !app_assoc; reflexivity|].
  split; [exact Hlen|].
  destruct bytes as [|b0 [|b1 [|b2 [|b3 [|b4 [|b5 bytes]]]]]]; reflexivity.
Qed.

Lemma trigger_pushes_unwritten_bytes_witness :
  emitted mma8491_trigger_handler world_short_read
    = [EvReadByte 0; EvReadBlock 1 6;
       EvPush [0x12; 0x34; 0xA2; 0xA3; 0xA4; 0xA5; 0xA6; 0xA7; 0xA8; 0xA9;
               0xAA; 0xAB; 0xAC; 0xAD; 0xAE; 0xAF] 0;
       EvNotifyDone].
Proof.
  destruct (trigger_pushes_unwritten_bytes world_short_read 0 2
              [0x12; 0x34]) as (Hem & _).
  - lia.
  - split; [unfold status_at; simpl; lia | reflexivity].
  - intros j Hj. lia.
  - reflexivity.
  - lia.
  - exact Hem.
Defined.

(** ** The decoder as a map between words and values *)

(** X13.  The two low bits of an axis word do not reach the value: words
    that differ only there decode alike. *)
Theorem decode_ignores_low_bits (word low : Z)
    (Hword : 0 <= word < 65536)
    (Haligned : word mod 4 = 0)
    (Hlow : 0 <= low < 4) :
  sample_decode (word + low) = sample_decode word.
Proof.
  rewrite !sample_decode_cases by (Z.div_mod_to_equations; lia).
  assert (Hq : (word + low) / 4 = word / 4)
    by (Z.div_mod_to_equations; lia).
  rewrite Hq.
  destruct (Z.ltb_spec (word + low) 32768); destruct (Z.ltb_spec word 32768);
    try reflexivity; Z.div_mod_to_equations; lia.
Qed.

Lemma decode_ignores_low_bits_witness :
  sample_decode (0xAAA8 + 3) = sample_decode 0xAAA8.
Proof. apply (decode_ignores_low_bits 0xAAA8 3); [lia | reflexivity | lia]. Defined.

(** X14.  Every value of the 14-bit two's-complement range is reported for
    some word: placing the value in the upper 14 bits of a 16-bit word and
    decoding gives the value back. *)
Theorem decode_encode (v : Z)
    (Hv : DecoderSpec.signed_min 14 <= v <= DecoderSpec.signed_max 14) :
  0 <= field_encode v < 65536 /\
  sample_decode (field_encode v) = v.
Proof.
  unfold DecoderSpec.signed_min, DecoderSpec.signed_max in Hv.
  change (2 ^ (14 - 1)) with 8192 in Hv.
  unfold field_encode. change (2 ^ 14) with 16384.
  assert (Hm : 0 <= v mod 16384 < 16384) by (apply Z.mod_pos_bound; lia).
  split; [lia|].
  rewrite sample_decode_cases by lia.
  rewrite Z.div_mul by lia.
  destruct (Z.ltb_spec (v mod 16384 * 4) 32768);
    Z.div_mod_to_equations; lia.
Qed.

Lemma decode_encode_witness :
  0 <= field_encode (-8192) < 65536 /\
  sample_decode (field_encode (-8192)) = -8192.
Proof. apply (decode_encode (-8192)). vm_compute. split; discriminate. Defined.

(** X15.  Decoding loses nothing but the two low bits: from the value one
    gets back the word with those bits cleared.  Two 16-bit words therefore
    decode alike only when their upper 14 bits agree. *)
Theorem encode_decode (word : Z) (Hword : 0 <= word < 65536) :
  field_encode (sample_decode word) = word - word mod 4 /\
  (forall word', 0 <= word' < 65536 ->
     sample_decode word' = sample_decode word -> word' / 4 = word / 4).
Proof.
  split.
  - rewrite sample_decode_cases by lia.
    unfold field_encode. change (2 ^ 14) with 16384.
    destruct (Z.ltb_spec word 32768); Z.div_mod_to_equations; lia.
  - intros word' Hword' Heq.
    rewrite !sample_decode_cases in Heq by lia.
    destruct (Z.ltb_spec word' 32768); destruct (Z.ltb_spec word 32768);
      Z.div_mod_to_equations; lia.
Qed.

Lemma encode_decode_witness :
  field_encode (sample_decode 0x3FFF) = 0x3FFF - 0x3FFF mod 4 /\
  (forall word', 0 <= word' < 65536 ->
     sample_decode word' = sample_decode 0x3FFF -> word' / 4 = 0x3FFF / 4).
Proof. apply (encode_decode 0x3FFF). lia. Defined.

(** ** Attaching and detaching *)

Lemma attach_emitted_of_trace {A : Type} (m : Attach.K A) (h : Attach.host)
    (evs : list Attach.event) :
  Attach.trace (Attach.after m h) = Attach.trace h ++ evs ->
  Attach.emitted m h = evs.
Proof. intros H. unfold Attach.emitted. rewrite H. apply skipn_length_app. Qed.

(** Unfold the calls of the attach monad on a host given by its fields. *)
Ltac attach_compute :=
  cbv beta iota zeta delta
    [fst snd negb Attach.result Attach.after Attach.bind Attach.ret
     Attach.devm_iio_device_alloc Attach.deref_platdata Attach.update_dev
     Attach.mutex_init Attach.i2c_set_clientdata Attach.i2c_get_clientdata
     Attach.devm_gpio_request_one Attach.dev_err
     Attach.iio_triggered_buffer_setup Attach.iio_device_register
     Attach.iio_device_unregister Attach.iio_triggered_buffer_cleanup
     Attach.record_event Attach.with_dev Attach.with_clientdata
     Attach.with_gpio_line Attach.with_poll_func Attach.with_registered
     Attach.alloc_ok Attach.platdata Attach.id_name Attach.gpio_request_ret
     Attach.buffer_setup_ret Attach.register_ret Attach.indio_dev
     Attach.clientdata Attach.gpio_line Attach.poll_func Attach.registered
     Attach.trace].

(** The probe on a host with platform data, field by field. *)
Lemma probe_run (h : Attach.host) (gpio : Z) :
  Attach.alloc_ok h = true ->
  Attach.platdata h = Some gpio ->
  let h' := Attach.after Attach.mma8491_probe h in
  let ok := Attach.probe_verdict h =? 0 in
  Attach.result Attach.mma8491_probe h = Attach.Done (Attach.probe_verdict h) /\
  Attach.registered h' = (if ok then true else Attach.registered h) /\
  Attach.poll_func h'
    = (if ok then Some mma8491_trigger_handler
       else if negb (Attach.gpio_request_ret h =? 0) then Attach.poll_func h
       else if Attach.buffer_setup_ret h <? 0 then Attach.poll_func h
       else None) /\
  Attach.gpio_line h'
    = (if Attach.gpio_request_ret h =? 0
       then Some (gpio, Attach.GPIOF_OUT_INIT_LOW, "mma8491-reset"%string)
       else Attach.gpio_line h) /\
  Attach.indio_dev h'
    = Some (Attach.set_iio_fields (Attach.id_name h)
              (Attach.set_rst_gpio gpio Attach.zeroed_dev)) /\
  Attach.clientdata h' = true /\
  Attach.trace h'
    = Attach.trace h
      ++ [Attach.EvDeviceAlloc; Attach.EvMutexInit; Attach.EvSetClientdata;
          Attach.EvGpioRequest gpio Attach.GPIOF_OUT_INIT_LOW "mma8491-reset"]
      ++ (if negb (Attach.gpio_request_ret h =? 0)
          then [Attach.EvDevErr "failed to request gpio %d: %d" gpio
                  (Attach.gpio_request_ret h)]
          else Attach.EvBufferSetup
               :: (if Attach.buffer_setup_ret h <? 0 then []
                   else Attach.EvDeviceRegister
                        :: (if Attach.register_ret h <? 0
                            then [Attach.EvBufferCleanup] else []))).
Proof.
  destruct h as [a p nm gr sr rr dev cd gl pf reg tr].
  cbn [Attach.alloc_ok Attach.platdata]. intros -> ->.
  unfold Attach.probe_verdict, Attach.mma8491_probe.
  generalize mma8491_trigger_handler. intros handler.
  attach_compute.
  destruct (gr =? 0) eqn:Eg; attach_compute.
  - destruct (sr <? 0) eqn:Es; attach_compute.
    + apply Z.ltb_lt in Es.
      destruct (Z.eqb_spec sr 0); [lia|].
      repeat split. rewrite <- !app_assoc. reflexivity.
    + destruct (rr <? 0) eqn:Er; attach_compute.
      * apply Z.ltb_lt in Er.
        destruct (Z.eqb_spec rr 0); [lia|].
        repeat split. rewrite <- !app_assoc. reflexivity.
      * repeat split. rewrite <- !app_assoc. reflexivity.
  - rewrite Eg. repeat split. rewrite <- !app_assoc. reflexivity.
Qed.

Lemma probe_verdict_zero (h : Attach.host) :
  Attach.probe_verdict h = 0 <->
  Attach.alloc_ok h = true /\ Attach.gpio_request_ret h = 0 /\
  0 <= Attach.buffer_setup_ret h /\ 0 <= Attach.register_ret h.
Proof.
  unfold Attach.probe_verdict, Attach.ENOMEM.
  destruct (Attach.alloc_ok h); cbn [negb].
  - destruct (Z.eqb_spec (Attach.gpio_request_ret h) 0) as [Hg | Hg];
      cbn [negb].
    + destruct (Z.ltb_spec (Attach.buffer_setup_ret h) 0).
      * split; [lia | intros (_ & _ & ? & _); lia].
      * destruct (Z.ltb_spec (Attach.register_ret h) 0).
        -- split; [lia | intros (_ & _ & _ & ?); lia].
        -- split; [intros _; repeat split; assumption | reflexivity].
    + split; [intros; contradiction | intros (_ & ? & _); contradiction].
  - split; [discriminate | intros (? & _); discriminate].
Qed.

(** The probe when the allocation fails, and when there is no platform
    data. *)
Lemma probe_no_memory (h : Attach.host) :
  Attach.alloc_ok h = false ->
  Attach.mma8491_probe h
    = (Attach.Done (- Attach.ENOMEM),
       Attach.record_event Attach.EvDeviceAlloc h).
Proof.
  intros Ha. unfold Attach.mma8491_probe, Attach.bind at 1,
    Attach.devm_iio_device_alloc.
  rewrite Ha. reflexivity.
Qed.

Lemma probe_no_platdata (h : Attach.host) :
  Attach.alloc_ok h = true ->
  Attach.platdata h = None ->
  Attach.mma8491_probe h
    = (Attach.Oops,
       Attach.record_event Attach.EvDeviceAlloc
         (Attach.with_dev (Some Attach.zeroed_dev) h)).
Proof.
  intros Ha Hp. unfold Attach.mma8491_probe, Attach.bind at 1,
    Attach.devm_iio_device_alloc.
  rewrite Ha. cbn [negb]. unfold Attach.bind at 1, Attach.deref_platdata.
  change (Attach.platdata
            (Attach.record_event Attach.EvDeviceAlloc
               (Attach.with_dev (Some Attach.zeroed_dev) h)))
    with (Attach.platdata h).
  rewrite Hp. reflexivity.
Qed.

(** X16.  On a host with platform data the probe returns [-ENOMEM] when
    the allocation fails and otherwise the value of the first collaborator
    that fails, unchanged: the GPIO request when it is not 0, else the
    buffer setup when negative, else the registration when negative.  It
    returns 0 exactly when the allocation succeeds, the GPIO request
    returns 0, and neither the buffer setup nor the registration returns a
    negative value. *)
Theorem probe_returns_first_failure (h : Attach.host) (gpio : Z)
    (Hpdata : Attach.platdata h = Some gpio) :
  Attach.result Attach.mma8491_probe h
    = Attach.Done (Attach.probe_verdict h) /\
  (Attach.result Attach.mma8491_probe h = Attach.Done 0 <->
   Attach.alloc_ok h = true /\ Attach.gpio_request_ret h = 0 /\
   0 <= Attach.buffer_setup_ret h /\ 0 <= Attach.register_ret h).
Proof.
  assert (Hres : Attach.result Attach.mma8491_probe h
                 = Attach.Done (Attach.probe_verdict h)).
  { destruct (Attach.alloc_ok h) eqn:Ha.
    - apply (probe_run h gpio Ha Hpdata).
    - unfold Attach.result. rewrite (probe_no_memory h Ha).
      unfold Attach.probe_verdict. rewrite Ha. reflexivity. }
  split; [exact Hres|].
  rewrite Hres, <- probe_verdict_zero.
  split; [intros H; injection H as H; exact H | intros ->; reflexivity].
Qed.

Lemma probe_returns_first_failure_witness :
  Attach.result Attach.mma8491_probe
    (Attach.fresh_host true (Some 17) 0 0 (-19))
    = Attach.Done (-19) /\
  (Attach.result Attach.mma8491_probe
     (Attach.fresh_host true (Some 17) 0 0 (-19)) = Attach.Done 0 <->
   true = true /\ 0 = 0 /\ 0 <= 0 /\ 0 <= -19).
Proof.
  apply (probe_returns_first_failure
           (Attach.fresh_host true (Some 17) 0 0 (-19)) 17).
  reflexivity.
Defined.

(** X17.  The probe attaches all or nothing.  Started on a host where no
    device is registered and no poll function installed, it leaves the
    device registered, with [mma8491_trigger_handler] as the poll function
    of the triggered buffer, exactly when it returns 0; in every other case
    (no memory, no platform data, a failing collaborator) the device is
    not registered and no poll function stays installed: the buffer set up
    before a failed registration is cleaned up again. *)
Theorem probe_all_or_nothing (h : Attach.host)
    (Hreg : Attach.registered h = false)
    (Hpoll : Attach.poll_func h = None) :
  let h' := Attach.after Attach.mma8491_probe h in
  (Attach.result Attach.mma8491_probe h = Attach.Done 0 ->
     Attach.registered h' = true /\
     Attach.poll_func h' = Some mma8491_trigger_handler) /\
  (Attach.result Attach.mma8491_probe h <> Attach.Done 0 ->
     Attach.registered h' = false /\ Attach.poll_func h' = None).
Proof.
  cbv zeta.
  destruct (Attach.alloc_ok h) eqn:Ha.
  - destruct (Attach.platdata h) as [gpio|] eqn:Hp.
    + destruct (probe_run h gpio Ha Hp) as (Hres & Hr & Hf & _).
      cbv zeta in Hr, Hf. rewrite Hres, Hr, Hf, Hreg, Hpoll.
      destruct (Z.eqb_spec (Attach.probe_verdict h) 0) as [Hz | Hnz].
      * rewrite Hz. split; [intros _; split; reflexivity|].
        intros Hne. contradiction Hne. reflexivity.
      * split; [intros H; injection H as H; contradiction|].
        intros _. split; [reflexivity|].
        destruct (negb (Attach.gpio_request_ret h =? 0)); [reflexivity|].
        destruct (Attach.buffer_setup_ret h <? 0); reflexivity.
    + unfold Attach.result, Attach.after.
      rewrite (probe_no_platdata h Ha Hp). cbn [fst snd].
      split; [discriminate|]. intros _. split; assumption.
  - unfold Attach.result, Attach.after.
    rewrite (probe_no_memory h Ha). cbn [fst snd].
    split; [discriminate|]. intros _. split; assumption.
Qed.

Lemma probe_all_or_nothing_witness :
  let h := Attach.fresh_host true (Some 17) 0 0 (-19) in
  let h' := Attach.after Attach.mma8491_probe h in
  (Attach.result Attach.mma8491_probe h = Attach.Done 0 ->
     Attach.registered h' = true /\
     Attach.poll_func h' = Some mma8491_trigger_handler) /\
  (Attach.result Attach.mma8491_probe h <> Attach.Done 0 ->
     Attach.registered h' = false /\ Attach.poll_func h' = None).
Proof.
  apply (probe_all_or_nothing (Attach.fresh_host true (Some 17) 0 0 (-19)));
    reflexivity.
Defined.

(** X18.  The probe dereferences the platform data without testing it: on
    a host that has memory but no platform data it stops there, after the
    allocation and before anything is requested or registered. *)
Theorem probe_without_platdata (h : Attach.host)
    (Hmem : Attach.alloc_ok h = true)
    (Hpdata : Attach.platdata h = None) :
  Attach.result Attach.mma8491_probe h = Attach.Oops /\
  Attach.emitted Attach.mma8491_probe h = [Attach.EvDeviceAlloc] /\
  Attach.gpio_line (Attach.after Attach.mma8491_probe h) = Attach.gpio_line h /\
  Attach.registered (Attach.after Attach.mma8491_probe h)
    = Attach.registered h.
Proof.
  unfold Attach.result, Attach.after, Attach.emitted.
  unfold Attach.after. rewrite (probe_no_platdata h Hmem Hpdata).
  cbn [fst snd]. repeat split.
  apply skipn_length_app.
Qed.

Lemma probe_without_platdata_witness :
  Attach.result Attach.mma8491_probe (Attach.fresh_host true None 0 0 0)
    = Attach.Oops /\
  Attach.emitted Attach.mma8491_probe (Attach.fresh_host true None 0 0 0)
    = [Attach.EvDeviceAlloc] /\
  Attach.gpio_line
    (Attach.after Attach.mma8491_probe (Attach.fresh_host true None 0 0 0))
    = None /\
  Attach.registered
    (Attach.after Attach.mma8491_probe (Attach.fresh_host true None 0 0 0))
    = false.
Proof.
  apply (probe_without_platdata (Attach.fresh_host true None 0 0 0));
    reflexivity.
Defined.

Lemma remove_run (h : Attach.host) (d : Attach.iio_dev) :
  Attach.clientdata h = true ->
  Attach.indio_dev h = Some d ->
  Attach.mma8491_remove h
    = (Attach.Done 0,
       Attach.record_event Attach.EvBufferCleanup
         (Attach.with_poll_func None
            (Attach.record_event Attach.EvDeviceUnregister
               (Attach.with_registered false h)))).
Proof.
  intros Hc Hd.
  unfold Attach.mma8491_remove, Attach.bind at 1, Attach.i2c_get_clientdata.
  rewrite Hc, Hd. reflexivity.
Qed.

Lemma probe_success_verdict (h : Attach.host) :
  Attach.alloc_ok h = true ->
  Attach.gpio_request_ret h = 0 ->
  0 <= Attach.buffer_setup_ret h ->
  0 <= Attach.register_ret h ->
  Attach.probe_verdict h = 0 /\
  (Attach.gpio_request_ret h =? 0) = true /\
  (Attach.buffer_setup_ret h <? 0) = false /\
  (Attach.register_ret h <? 0) = false.
Proof.
  intros Ha Hg Hs Hr.
  split; [apply probe_verdict_zero; repeat split; assumption|].
  rewrite Hg. repeat split; apply Z.ltb_ge; assumption.
Qed.

(** X19.  Detaching undoes attaching.  After a probe that returned 0,
    [mma8491_remove] returns 0, unregisters the device and then cleans up
    the triggered buffer, in the reverse order of their setup; the device
    is no longer registered and no poll function is installed.  The driver
    itself never gives the GPIO line back. *)
Theorem probe_then_remove (h : Attach.host) (gpio : Z)
    (Hmem : Attach.alloc_ok h = true)
    (Hpdata : Attach.platdata h = Some gpio)
    (Hgpio : Attach.gpio_request_ret h = 0)
    (Hsetup : 0 <= Attach.buffer_setup_ret h)
    (Hregister : 0 <= Attach.register_ret h) :
  let h1 := Attach.after Attach.mma8491_probe h in
  let h2 := Attach.after Attach.mma8491_remove h1 in
  Attach.result Attach.mma8491_probe h = Attach.Done 0 /\
  Attach.result Attach.mma8491_remove h1 = Attach.Done 0 /\
  Attach.registered h2 = false /\
  Attach.poll_func h2 = None /\
  Attach.gpio_line h2
    = Some (gpio, Attach.GPIOF_OUT_INIT_LOW, "mma8491-reset"%string) /\
  Attach.trace h2
    = Attach.trace h
      ++ [Attach.EvDeviceAlloc; Attach.EvMutexInit; Attach.EvSetClientdata;
          Attach.EvGpioRequest gpio Attach.GPIOF_OUT_INIT_LOW "mma8491-reset";
          Attach.EvBufferSetup; Attach.EvDeviceRegister;
          Attach.EvDeviceUnregister; Attach.EvBufferCleanup].
Proof.
  cbv zeta.
  destruct (probe_run h gpio Hmem Hpdata)
    as (Hres & _ & _ & Hline & Hdev & Hcd & Htrace).
  destruct (probe_success_verdict h Hmem Hgpio Hsetup Hregister)
    as (Hv & Eg & Es & Er).
  rewrite Eg, ?Es, ?Er in Hline, Htrace. cbn [negb] in Htrace.
  rewrite Es, Er in Htrace.
  rewrite Hv in Hres.
  pose proof (remove_run _ _ Hcd Hdev) as Hrun.
  set (h1 := Attach.after Attach.mma8491_probe h) in *.
  assert (Hres2 : Attach.result Attach.mma8491_remove h1 = Attach.Done 0)
    by (unfold Attach.result; rewrite Hrun; reflexivity).
  assert (Haft2 : Attach.after Attach.mma8491_remove h1
                  = Attach.record_event Attach.EvBufferCleanup
                      (Attach.with_poll_func None
                         (Attach.record_event Attach.EvDeviceUnregister
                            (Attach.with_registered false h1))))
    by (unfold Attach.after at 1; rewrite Hrun; reflexivity).
  rewrite Hres2, Haft2.
  split; [exact Hres|]. split; [reflexivity|].
  split; [reflexivity|]. split; [reflexivity|].
  split; [exact Hline|].
  change (Attach.trace
            (Attach.record_event Attach.EvBufferCleanup
               (Attach.with_poll_func None
                  (Attach.record_event Attach.EvDeviceUnregister
                     (Attach.with_registered false h1)))))
    with ((Attach.trace h1 ++ [Attach.EvDeviceUnregister])
          ++ [Attach.EvBufferCleanup]).
  rewrite Htrace, <- !app_assoc. reflexivity.
Qed.

Lemma probe_then_remove_witness :
  let h := Attach.fresh_host true (Some 17) 0 0 0 in
  let h1 := Attach.after Attach.mma8491_probe h in
  let h2 := Attach.after Attach.mma8491_remove h1 in
  Attach.result Attach.mma8491_probe h = Attach.Done 0 /\
  Attach.result Attach.mma8491_remove h1 = Attach.Done 0 /\
  Attach.registered h2 = false /\
  Attach.poll_func h2 = None /\
  Attach.gpio_line h2
    = Some (17, Attach.GPIOF_OUT_INIT_LOW, "mma8491-reset"%string) /\
  Attach.trace h2
    = [Attach.EvDeviceAlloc; Attach.EvMutexInit; Attach.EvSetClientdata;
       Attach.EvGpioRequest 17 Attach.GPIOF_OUT_INIT_LOW "mma8491-reset";
       Attach.EvBufferSetup; Attach.EvDeviceRegister;
       Attach.EvDeviceUnregister; Attach.EvBufferCleanup].
Proof.
  apply (probe_then_remove (Attach.fresh_host true (Some 17) 0 0 0) 17);
    try reflexivity; simpl; lia.
Defined.

(** X20.  After a probe that returned 0 the registered device carries the
    driver's callbacks and its four channels, the line named by the
    platform data has been requested as an output driven low, and that
    line is the one an on-demand read on the device drives high before its
    bus reads and low after them. *)
Theorem probed_device_gates_its_line (h : Attach.host) (gpio : Z)
    (Hmem : Attach.alloc_ok h = true)
    (Hpdata : Attach.platdata h = Some gpio)
    (Hgpio : Attach.gpio_request_ret h = 0)
    (Hsetup : 0 <= Attach.buffer_setup_ret h)
    (Hregister : 0 <= Attach.register_ret h) :
  let h' := Attach.after Attach.mma8491_probe h in
  exists d,
    Attach.indio_dev h' = Some d /\
    Attach.info d = Some mma8491_info /\
    Attach.channels d = mma8491_channels /\
    Attach.num_channels d = 4%nat /\
    Attach.available_scan_masks d = mma8491_scan_masks /\
    rst_gpio (Attach.priv d) = gpio /\
    Attach.gpio_line h'
      = Some (gpio, Attach.GPIOF_OUT_INIT_LOW, "mma8491-reset"%string) /\
    forall chan w,
      buffer_enabled w = false ->
      power_gated gpio
        (emitted (mma8491_read_raw (Attach.priv d) chan IIO_CHAN_INFO_RAW) w)
      = true.
Proof.
  cbv zeta.
  destruct (probe_run h gpio Hmem Hpdata)
    as (_ & _ & _ & Hline & Hdev & _).
  destruct (probe_success_verdict h Hmem Hgpio Hsetup Hregister)
    as (_ & Eg & _).
  rewrite Eg in Hline.
  eexists. split; [exact Hdev|].
  repeat split; try reflexivity; try exact Hline.
  intros chan w Hoff.
  exact (proj1 (read_raw_power_gated
                  (Attach.priv
                     (Attach.set_iio_fields (Attach.id_name h)
                        (Attach.set_rst_gpio gpio Attach.zeroed_dev)))
                  chan w Hoff)).
Qed.

Lemma probed_device_gates_its_line_witness :
  let h' := Attach.after Attach.mma8491_probe
              (Attach.fresh_host true (Some 17) 0 0 0) in
  exists d,
    Attach.indio_dev h' = Some d /\
    Attach.info d = Some mma8491_info /\
    Attach.channels d = mma8491_channels /\
    Attach.num_channels d = 4%nat /\
    Attach.available_scan_masks d = mma8491_scan_masks /\
    rst_gpio (Attach.priv d) = 17 /\
    Attach.gpio_line h'
      = Some (17, Attach.GPIOF_OUT_INIT_LOW, "mma8491-reset"%string) /\
    forall chan w,
      buffer_enabled w = false ->
      power_gated 17
        (emitted (mma8491_read_raw (Attach.priv d) chan IIO_CHAN_INFO_RAW) w)
      = true.
Proof.
  apply (probed_device_gates_its_line
           (Attach.fresh_host true (Some 17) 0 0 0) 17);
    try reflexivity; simpl; lia.
Defined.

(** * Two callers of the on-demand path *)

Lemma run_schedule_step (data : mma8491_data) (mover : who)
    (rest : list who) (a b : reader) (w : world) :
  run_schedule data (mover :: rest) a b w =
  match mover with
  | ReaderA =>
      match fst (reader_step data a w) with
      | Some a1 => run_schedule data rest a1 b (snd (reader_step data a w))
      | None => (None, snd (reader_step data a w))
      end
  | ReaderB =>
      match fst (reader_step data b w) with
      | Some b1 => run_schedule data rest a b1 (snd (reader_step data b w))
      | None => (None, snd (reader_step data b w))
      end
  end.
Proof.
  destruct mover.
  - change (run_schedule data (ReaderA :: rest) a b)
      with (a' <- reader_step data a ;;
            match a' with
            | Some a1 => run_schedule data rest a1 b
            | None => ret None
            end).
    rewrite bind_run. destruct (fst (reader_step data a w)); reflexivity.
  - change (run_schedule data (ReaderB :: rest) a b)
      with (b' <- reader_step data b ;;
            match b' with
            | Some b1 => run_schedule data rest a b1
            | None => ret None
            end).
    rewrite bind_run. destruct (fst (reader_step data b w)); reflexivity.
Qed.

Lemma reader_step_lock (data : mma8491_data) (rest : list raw_step)
    (buf : list Z) (r : option Z) (w : world) :
  reader_step data (mk_reader (StepLock :: rest) buf r) w =
  if lock_held w then (None, w)
  else (Some (mk_reader rest buf r),
        record_event EvMutexLock (set_lock_held true w)).
Proof.
  unfold reader_step. cbn [todo rd_buffer rd_ret].
  destruct (lock_held w); reflexivity.
Qed.

Lemma reader_step_acquire (data : mma8491_data) (rest : list raw_step)
    (buf : list Z) (r : option Z) (w : world) :
  reader_step data (mk_reader (StepAcquire :: rest) buf r) w =
  (Some (mk_reader rest (snd (result (mma8491_read buf) w))
           (Some (fst (result (mma8491_read buf) w)))),
   after (mma8491_read buf) w).
Proof.
  unfold reader_step. cbn [todo rd_buffer rd_ret].
  rewrite bind_run. reflexivity.
Qed.

(** A caller that makes its five calls undisturbed does what
    [mma8491_read_raw] does. *)
Lemma reader_alone_is_read_raw (data : mma8491_data) (chan : iio_chan_spec)
    (w : world) :
  buffer_enabled w = false ->
  lock_held w = false ->
  exists a b,
    two_readers data [ReaderA; ReaderA; ReaderA; ReaderA; ReaderA] w
      = (Some (a, b), after (mma8491_read_raw data chan IIO_CHAN_INFO_RAW) w) /\
    reader_result chan a
      = Some (result (mma8491_read_raw data chan IIO_CHAN_INFO_RAW) w) /\
    todo b = raw_steps.
Proof.
  intros Hoff Hfree.
  pose proof (read_raw_run data chan w Hoff) as Hrun. cbv zeta in Hrun.
  unfold result at 1, after at 1. rewrite Hrun. cbn [fst snd].
  set (buf0 := result (stack_array 6) w) in *.
  set (rbw := mma8491_read buf0 (on_demand_entry data w)).
  exists (mk_reader [] (snd (fst rbw)) (Some (fst (fst rbw)))).
  exists (mk_reader raw_steps buf0 None).
  split; [|split; reflexivity].
  change (two_readers data [ReaderA; ReaderA; ReaderA; ReaderA; ReaderA] w)
    with (run_schedule data [ReaderA; ReaderA; ReaderA; ReaderA; ReaderA]
            (mk_reader raw_steps buf0 None) (mk_reader raw_steps buf0 None) w).
  unfold raw_steps at 1.
  rewrite run_schedule_step.
  change (reader_step data
            (mk_reader [StepPowerOn; StepLock; StepAcquire; StepUnlock;
                        StepPowerOff] buf0 None) w)
    with (Some (mk_reader [StepLock; StepAcquire; StepUnlock; StepPowerOff]
                  buf0 None),
          record_event (EvGpioSet (rst_gpio data) 1)
            (set_gpio_level (rst_gpio data) 1 w)).
  cbn [fst snd].
  rewrite run_schedule_step, reader_step_lock.
  change (lock_held (record_event (EvGpioSet (rst_gpio data) 1)
                       (set_gpio_level (rst_gpio data) 1 w)))
    with (lock_held w).
  rewrite Hfree. cbn [fst snd].
  change (record_event EvMutexLock
            (set_lock_held true
               (record_event (EvGpioSet (rst_gpio data) 1)
                  (set_gpio_level (rst_gpio data) 1 w))))
    with (on_demand_entry data w).
  rewrite run_schedule_step, reader_step_acquire. cbn [fst snd].
  rewrite run_schedule_step.
  reflexivity.
Qed.

(** C7.  Two callers of the on-demand path whose calls overlap: the first
    raises the enable line and takes the mutex, the second raises the line
    and has to wait for the mutex; once the first has released it the
    second takes it, the first lowers the line, and the second polls and
    reads.  The mutex has done its work, every bus read is made under it,
    but it does not span the power window: the line is driven by callers
    that do not hold the mutex, once while the other caller holds it, and
    the second caller's status read and block read are made with the line
    low.  Both callers return [IIO_VAL_INT]. *)
Theorem two_readers_read_unpowered :
  let run := two_readers the_device overlapping_schedule in
  let evs := emitted run world_ready in
  evs = [EvGpioSet 17 1; EvMutexLock; EvGpioSet 17 1;
         EvReadByte 0; EvReadBlock 1 6; EvMutexUnlock;
         EvMutexLock; EvGpioSet 17 0;
         EvReadByte 0; EvReadBlock 1 6; EvMutexUnlock; EvGpioSet 17 0] /\
  under_lock is_bus_read false evs = true /\
  under_lock is_gpio_set false evs = false /\
  outside_lock is_gpio_set false evs = false /\
  reads_powered (rst_gpio the_device) 0 evs = false /\
  power_gated (rst_gpio the_device) evs = false /\
  (exists a b,
     result run world_ready = Some (a, b) /\
     reader_result (MMA8491_CHANNEL IIO_MOD_X 0) a
       = Some (mk_raw_result IIO_VAL_INT (Some 1)) /\
     reader_result (MMA8491_CHANNEL IIO_MOD_X 0) b
       = Some (mk_raw_result IIO_VAL_INT (Some 1))).
Proof.
  cbv zeta.
  repeat split.
  eexists. eexists. repeat split.
Qed.
